(** * IoT appliance usage simulation: the pipeline core of [simulation_main.py]

    A shallow embedding of the statistics tracker ([LiveStats]), the MQTT
    client wrapper ([MQTTClient]), the application layer
    ([ApplicationLayer]) and the replay loop ([simulate_device]), followed by
    the properties the specification states about them.

    Conventions.
    - Python's [float] readings are exact rationals [Q], compared up to
      [==]; binary64 rounding, overflow and NaN are outside the model.  The
      one non-finite value the program creates itself, [float('inf')] for the
      initial [min_power], is kept as [PInf].  Python's [int] is [Z].
    - Methods take the object as [self] and return its new state.
    - A raised exception is [None] (or [Raises] for a library call); where
      the source catches it, the function returns the state reached so far.
    - Terminal output ([print], the dashboard) is not part of the state.
    - What the surroundings decide (the clock, the network thread, the
      broker's answers, [json.dumps] and [json.loads]) is an argument. *)

From Stdlib Require Import ZArith QArith Qcanon Qminmax Lqa Lia List Floats.
From Stdlib Require Import Ascii Decimal DecimalString DecimalN.
From stdpp Require Import base option list strings gmap.

#[local] Set Warnings "-register-all".
Local Open Scope Z_scope.

(* ===================================================================== *)
(** ** Python numerics *)
(* ===================================================================== *)

(** [a > b] and [a < b] on floats. *)
Definition py_gt (a b : Q) : bool :=
  match (a ?= b)%Q with Gt => true | _ => false end.

Definition py_lt (a b : Q) : bool :=
  match (a ?= b)%Q with Lt => true | _ => false end.

(** The builtin [max(a, b)]: the first argument is kept unless the second is
    strictly greater; [min(a, b)] likewise with strictly smaller. *)
Definition py_max (a b : Q) : Q := if py_gt b a then b else a.
Definition py_min (a b : Q) : Q := if py_lt b a then b else a.

(** A float that is either finite or [float('inf')]. *)
Inductive xfloat : Type :=
  | Fin (q : Q)
  | PInf.

Definition x_lt (a b : xfloat) : bool :=
  match a, b with
  | Fin x, Fin y => py_lt x y
  | Fin _, PInf => true
  | PInf, _ => false
  end.

(** [min(m, p)] where [m] may be infinite and [p] is a reading. *)
Definition x_min (m : xfloat) (p : Q) : xfloat :=
  if x_lt (Fin p) m then Fin p else m.

(** Order and equality of extended floats, as propositions. *)
Definition x_le (a b : xfloat) : Prop :=
  match a, b with
  | Fin x, Fin y => (x <= y)%Q
  | _, PInf => True
  | PInf, Fin _ => False
  end.

Definition x_eq (a b : xfloat) : Prop :=
  match a, b with
  | Fin x, Fin y => (x == y)%Q
  | PInf, PInf => True
  | _, _ => False
  end.

(** [int(x)]: truncation towards zero. *)
Definition py_int (x : Q) : Z := Z.quot (Qnum x) (Z.pos (Qden x)).

(** [s * n] for a one-character string [s]: empty when [n <= 0]. *)
Definition str_mul {A : Type} (c : A) (n : Z) : list A := repeat c (Z.to_nat n).

(* ===================================================================== *)
(** ** [collections.deque(maxlen=...)] *)
(* ===================================================================== *)

(** [d.append(x)] on a bounded deque: the item is added on the right and,
    when the length then exceeds [maxlen], one item is dropped on the left. *)
Definition deque_append {A : Type} (maxlen : nat) (d : list A) (x : A) : list A :=
  let d' := d ++ [x] in
  if (maxlen <? length d')%nat then tail d' else d'.

(* ===================================================================== *)
(** ** [class LiveStats] *)
(* ===================================================================== *)

Definition RECENT_MAXLEN : nat := 20.

Record LiveStats : Type := mkLiveStats {
  device_id : string;
  device_name : string;
  message_count : Z;
  total_power : Q;
  max_power : Q;
  min_power : xfloat;
  current_power : Q;
  recent_powers : list Q;
}.

(** [LiveStats.__init__] *)
Definition LiveStats_init (device_id device_name : string) : LiveStats :=
  {| device_id := device_id;
     device_name := device_name;
     message_count := 0;
     total_power := 0%Q;
     max_power := 0%Q;
     min_power := PInf;
     current_power := 0%Q;
     recent_powers := [] |}.

(** [LiveStats.add_data] *)
Definition add_data (self : LiveStats) (power : Q) : LiveStats :=
  {| device_id := device_id self;
     device_name := device_name self;
     message_count := message_count self + 1;
     total_power := (total_power self + power)%Q;
     max_power := py_max (max_power self) power;
     min_power := x_min (min_power self) power;
     current_power := power;
     recent_powers := deque_append RECENT_MAXLEN (recent_powers self) power |}.

(** [LiveStats.get_avg_power] *)
Definition get_avg_power (self : LiveStats) : Q :=
  if 0 <? message_count self
  then (total_power self / inject_Z (message_count self))%Q
  else 0%Q.

(** The two characters of the bar: U+2588 FULL BLOCK and U+2591 LIGHT SHADE. *)
Inductive glyph : Type := FULL_BLOCK | LIGHT_SHADE.

(** [LiveStats.get_power_bar] *)
Definition get_power_bar (self : LiveStats) (width : Z) : list glyph :=
  if Qeq_bool (max_power self) 0 then str_mul LIGHT_SHADE width
  else
    let normalized :=
      if py_gt (max_power self) 0
      then (current_power self / max_power self)%Q
      else 0%Q in
    let filled := py_int (normalized * inject_Z width) in
    str_mul FULL_BLOCK filled ++ str_mul LIGHT_SHADE (width - filled).

(** A sequence of [add_data] calls, in order. *)
Definition feed (s : LiveStats) (ps : list Q) : LiveStats :=
  fold_left add_data ps s.

(** States reachable from a freshly constructed tracker by [add_data]. *)
Inductive reachable : LiveStats -> Prop :=
  | reach_init id name : reachable (LiveStats_init id name)
  | reach_add s p : reachable s -> reachable (add_data s p).

(* ===================================================================== *)
(** ** Message payloads: decoded JSON values *)
(* ===================================================================== *)

(** What [json.loads] produces from JSON text, and what the replay loop
    builds for a finite reading.  A number is an [int] or a finite [float],
    held by its value; [NaN] and [Infinity], which Python reads and writes
    beyond the JSON grammar, are not among these payloads. *)
Inductive json : Type :=
  | JNull
  | JBool (b : bool)
  | JNum (q : Q)
  | JStr (s : string)
  | JArr (items : list json)
  | JObj (fields : list (string * json)).

(** [d.get(key, default)] on a dict given by its items. *)
Fixpoint dict_get (fields : list (string * json)) (key : string) (default : json) : json :=
  match fields with
  | [] => default
  | (k, v) :: rest => if String.eqb k key then v else dict_get rest key default
  end.

(** [payload.get(key, default)]: only a dict has [get]; on any other value
    the attribute lookup raises, rendered as [None]. *)
Definition payload_get (payload : json) (key : string) (default : json) : option json :=
  match payload with
  | JObj fields => Some (dict_get fields key default)
  | _ => None
  end.

(** An [int] converts to a float when, rounded to the nearest binary64, it
    is finite: when its magnitude is below [2**1024 - 2**970].  Every finite
    float is below that bound. *)
Definition FLOAT_LIMIT : Q := inject_Z (2 ^ 1024 - 2 ^ 970).

(** The value as an operand of float arithmetic and comparison: numbers and
    booleans are accepted ([True] counts as 1), anything else raises
    [TypeError]; so does, with [OverflowError], an [int] that does not
    convert to a float.  Raising is rendered as [None]. *)
Definition as_number (v : json) : option Q :=
  match v with
  | JNum q => if Qle_bool FLOAT_LIMIT q || Qle_bool q (- FLOAT_LIMIT) then None
              else Some q
  | JBool b => Some (if b then 1%Q else 0%Q)
  | _ => None
  end.

(** Keys of the [device_stats] dict.  Python identifies [True], [1] and
    [1.0] as keys, so booleans and numbers share [KNum], held in canonical
    form. *)
Inductive dict_key : Type :=
  | KNone
  | KNum (q : Qc)
  | KStr (s : string).

#[global] Instance dict_key_eq_dec : EqDecision dict_key.
Proof. solve_decision. Defined.

Definition dict_key_encode (k : dict_key) : unit + Qc + string :=
  match k with
  | KNone => inl (inl tt)
  | KNum q => inl (inr q)
  | KStr s => inr s
  end.

Definition dict_key_decode (x : unit + Qc + string) : dict_key :=
  match x with
  | inl (inl _) => KNone
  | inl (inr q) => KNum q
  | inr s => KStr s
  end.

#[global] Instance dict_key_countable : Countable dict_key.
Proof.
  apply (inj_countable' dict_key_encode dict_key_decode).
  intros []; reflexivity.
Defined.

(** Hashing a value for use as a dict key: lists and dicts are unhashable
    ([TypeError], rendered as [None]). *)
Definition as_key (v : json) : option dict_key :=
  match v with
  | JNull => Some KNone
  | JBool b => Some (KNum (Q2Qc (if b then 1 else 0)))
  | JNum q => Some (KNum (Q2Qc q))
  | JStr s => Some (KStr s)
  | JArr _ | JObj _ => None
  end.

(* ===================================================================== *)
(** ** [class ApplicationLayer] *)
(* ===================================================================== *)

(** One value of [device_stats]. *)
Record DeviceStats : Type := mkDeviceStats {
  ds_message_count : Z;
  ds_total_power : Q;
  ds_max_power : Q;
  ds_min_power : xfloat;
}.

(** One entry of [received_messages]. *)
Record ReceivedMessage : Type := mkReceived {
  rm_device_id : json;
  rm_timestamp : json;
  rm_power : json;
  rm_topic : string;
}.

(** The consumer.  Its [mqtt_client] attribute is a reference to the client
    object owned by the caller; here the client is passed to the methods that
    read it. *)
Record ApplicationLayer : Type := mkApp {
  received_messages : list ReceivedMessage;
  processed_count : Z;
  device_stats : gmap dict_key DeviceStats;
  topic_filter : string;
  subscribed : bool;
}.

(** [ApplicationLayer.__init__] *)
Definition ApplicationLayer_init (topic_filter : string) : ApplicationLayer :=
  {| received_messages := [];
     processed_count := 0;
     device_stats := ∅;
     topic_filter := topic_filter;
     subscribed := false |}.

Definition fresh_device_stats : DeviceStats :=
  {| ds_message_count := 0; ds_total_power := 0%Q;
     ds_max_power := 0%Q; ds_min_power := PInf |}.

Definition set_device_stats (self : ApplicationLayer) (d : gmap dict_key DeviceStats)
  : ApplicationLayer :=
  {| received_messages := received_messages self;
     processed_count := processed_count self;
     device_stats := d;
     topic_filter := topic_filter self;
     subscribed := subscribed self |}.

(** [ApplicationLayer.process_json_message].  The body runs inside
    [try ... except Exception], so a statement that raises ends the call and
    keeps the updates made before it; the terminal output of the method is
    not part of the state. *)
Definition process_json_message (self : ApplicationLayer) (topic : string) (payload : json)
  : ApplicationLayer :=
  match payload_get payload "device_id" (JStr "unknown"),
        payload_get payload "timestamp" (JStr ""),
        payload_get payload "power" (JNum 0) with
  | Some device_id, Some timestamp, Some power =>
    match as_key device_id with
    | None => self
    | Some key =>
      (* if device_id not in self.device_stats: create the record *)
      let d0 := match device_stats self !! key with
                | Some _ => device_stats self
                | None => <[key := fresh_device_stats]> (device_stats self)
                end in
      let stats := default fresh_device_stats (d0 !! key) in
      (* stats["message_count"] += 1 *)
      let stats1 := {| ds_message_count := ds_message_count stats + 1;
                       ds_total_power := ds_total_power stats;
                       ds_max_power := ds_max_power stats;
                       ds_min_power := ds_min_power stats |} in
      let d1 := <[key := stats1]> d0 in
      match as_number power with
      | None => set_device_stats self d1
      | Some p =>
        let stats2 := {| ds_message_count := ds_message_count stats1;
                         ds_total_power := (ds_total_power stats1 + p)%Q;
                         ds_max_power := py_max (ds_max_power stats1) p;
                         ds_min_power := x_min (ds_min_power stats1) p |} in
        {| received_messages :=
             received_messages self ++
               [ {| rm_device_id := device_id; rm_timestamp := timestamp;
                    rm_power := power; rm_topic := topic |} ];
           processed_count := processed_count self + 1;
           device_stats := <[key := stats2]> d1;
           topic_filter := topic_filter self;
           subscribed := subscribed self |}
      end
    end
  | _, _, _ => self
  end.

(* ===================================================================== *)
(** ** [class MQTTClient] *)
(* ===================================================================== *)

(** What a call into the paho library does: it returns a value or raises. *)
Inductive outcome (A : Type) : Type :=
  | Returns (a : A)
  | Raises.
Arguments Returns {A} a.
Arguments Raises {A}.

Definition MQTT_ERR_SUCCESS : Z := 0.

Record MqttMessage : Type := mkMsg {
  msg_topic : string;
  msg_payload : string;
  msg_qos : Z;
  msg_retain : bool;
}.

(** The part of a [paho.mqtt.client.Client] object the program touches;
    [paho_published] lists the messages of the [publish] calls that
    returned. *)
Record PahoClient : Type := mkPaho {
  paho_client_id : string;
  paho_credentials : option (string * string);
  paho_loop_running : bool;
  paho_published : list MqttMessage;
  paho_subscriptions : list (string * Z);
  paho_on_message : bool;
}.

Record MQTTClient : Type := mkClient {
  broker_host : string;
  broker_port : Z;
  username : option string;
  password : option string;
  client_id : string;
  client : option PahoClient;
  connected : bool;
}.

(** Truth value of an optional string: [None] and [''] are false. *)
Definition truthy (s : option string) : bool :=
  match s with
  | Some EmptyString | None => false
  | Some _ => true
  end.

(** [MQTTClient.__init__]; [pid_text] is the text of [os.getpid()]. *)
Definition MQTTClient_init (pid_text : string) (broker_host : string) (broker_port : Z)
    (username password client_id : option string) : MQTTClient :=
  {| broker_host := broker_host;
     broker_port := broker_port;
     username := username;
     password := password;
     client_id := if truthy client_id then default ""%string client_id
                  else ("iot_simulator_" ++ pid_text)%string;
     client := None;
     connected := false |}.

Definition set_connected (self : MQTTClient) (b : bool) : MQTTClient :=
  {| broker_host := broker_host self; broker_port := broker_port self;
     username := username self; password := password self;
     client_id := client_id self; client := client self; connected := b |}.

Definition set_client (self : MQTTClient) (pc : option PahoClient) : MQTTClient :=
  {| broker_host := broker_host self; broker_port := broker_port self;
     username := username self; password := password self;
     client_id := client_id self; client := pc; connected := connected self |}.

(** [MQTTClient._on_connect] and [MQTTClient._on_disconnect], the callbacks
    the network thread runs. *)
Definition _on_connect (self : MQTTClient) (rc : Z) : MQTTClient :=
  if rc =? 0 then set_connected self true else set_connected self false.

Definition _on_disconnect (self : MQTTClient) (rc : Z) : MQTTClient :=
  set_connected self false.

(** Notifications of the network thread. *)
Inductive net_event : Type :=
  | ConnAck (rc : Z)
  | ConnLost (rc : Z).

Definition run_callback (self : MQTTClient) (e : net_event) : MQTTClient :=
  match e with
  | ConnAck rc => _on_connect self rc
  | ConnLost rc => _on_disconnect self rc
  end.

Definition run_callbacks (self : MQTTClient) (es : list net_event) : MQTTClient :=
  fold_left run_callback es self.

(** The surroundings of one [connect()] call: whether the two paho calls
    raise, the successive readings of [time.time()], and the notifications the
    network thread has delivered before the k-th reading of
    [self.connected]. *)
Record ConnectEnv : Type := mkEnv {
  ctor_raises : bool;
  tcp_connect_raises : bool;
  clock : nat -> Q;
  arrivals : nat -> list net_event;
}.

Definition CONNECT_TIMEOUT : Q := 5.

(** The wait loop of [connect]:
    [while not self.connected and (time.time() - start_time) < timeout:
       time.sleep(0.1)].
    [k] counts the readings of [self.connected] made so far; reading [k+1] of
    the clock belongs to iteration [k] (reading 0 is [start_time]).  [None]
    is running out of [fuel]. *)
Fixpoint wait_for_ack (env : ConnectEnv) (start_time : Q) (fuel k : nat)
    (self : MQTTClient) : option (nat * MQTTClient) :=
  match fuel with
  | O => None
  | S fuel' =>
    let self1 := run_callbacks self (arrivals env k) in
    if connected self1 then Some (S k, self1)
    else if py_lt (clock env (S k) - start_time) CONNECT_TIMEOUT
         then wait_for_ack env start_time fuel' (S k) self1
         else Some (S k, self1)
  end.

(** [MQTTClient.connect]; an exception of either paho call is caught and
    gives [False]. *)
Definition connect (env : ConnectEnv) (fuel : nat) (self : MQTTClient)
  : option (bool * MQTTClient) :=
  if ctor_raises env then Some (false, self)
  else
    let pc := {| paho_client_id := client_id self;
                 paho_credentials :=
                   if truthy (username self) && truthy (password self)
                   then Some (default ""%string (username self),
                              default ""%string (password self))
                   else None;
                 paho_loop_running := false;
                 paho_published := [];
                 paho_subscriptions := [];
                 paho_on_message := false |} in
    if tcp_connect_raises env then Some (false, set_client self (Some pc))
    else
      let started := {| paho_client_id := paho_client_id pc;
                        paho_credentials := paho_credentials pc;
                        paho_loop_running := true;
                        paho_published := paho_published pc;
                        paho_subscriptions := paho_subscriptions pc;
                        paho_on_message := paho_on_message pc |} in
      match wait_for_ack env (clock env 0) fuel 0 (set_client self (Some started)) with
      | None => None
      | Some (k, self1) =>
        let self2 := run_callbacks self1 (arrivals env k) in
        Some (connected self2, self2)
      end.

Section Transport.

(** [json.dumps] on a payload, and [json.loads] on the UTF-8 text of a
    received message ([None] when decoding raises).  Both belong to the
    Python library; nothing is assumed about them. *)
Variable json_dumps : json -> string.
Variable json_loads : string -> option json.

(** [MQTTClient.publish]; [broker_rc] is what [self.client.publish]
    does. *)
Definition publish (self : MQTTClient) (topic : string) (payload : json)
    (qos : Z) (retain : bool) (broker_rc : outcome Z) : bool * MQTTClient :=
  if negb (connected self) then (false, self)
  else
    let json_payload := json_dumps payload in
    match client self, broker_rc with
    | Some pc, Returns rc =>
      let pc' := {| paho_client_id := paho_client_id pc;
                    paho_credentials := paho_credentials pc;
                    paho_loop_running := paho_loop_running pc;
                    paho_published :=
                      paho_published pc ++
                        [ {| msg_topic := topic; msg_payload := json_payload;
                             msg_qos := qos; msg_retain := retain |} ];
                    paho_subscriptions := paho_subscriptions pc;
                    paho_on_message := paho_on_message pc |} in
      (rc =? MQTT_ERR_SUCCESS, set_client self (Some pc'))
    | _, _ => (false, self)
    end.

(** [ApplicationLayer._on_mqtt_message] *)
Definition _on_mqtt_message (self : ApplicationLayer) (msg : MqttMessage)
  : ApplicationLayer :=
  match json_loads (msg_payload msg) with
  | Some payload => process_json_message self (msg_topic msg) payload
  | None => self
  end.

(** [fake_mqtt_publish]: the statistics update; [None] when the power is
    not a number and [add_data] raises. *)
Definition fake_mqtt_publish (topic : string) (payload : json) (stats : LiveStats)
  : option LiveStats :=
  power ← payload_get payload "power" (JNum 0);
  p ← as_number power;
  Some (add_data stats p).

(** [real_mqtt_publish] *)
Definition real_mqtt_publish (mqtt_client : MQTTClient) (topic : string)
    (payload : json) (stats : LiveStats) (broker_rc : outcome Z)
  : option (LiveStats * MQTTClient) :=
  power ← payload_get payload "power" (JNum 0);
  p ← as_number power;
  let stats' := add_data stats p in
  let '(success, mqtt_client') := publish mqtt_client topic payload 0 false broker_rc in
  Some (stats', mqtt_client').

End Transport.

(* ===================================================================== *)
(** ** [simulate_device] *)
(* ===================================================================== *)

(** [mqtt_client and mqtt_client.connected] *)
Definition client_live (mqtt_client : option MQTTClient) : bool :=
  match mqtt_client with
  | Some c => connected c
  | None => false
  end.

(** [self.mqtt_client.client.on_message = self._on_mqtt_message] *)
Definition install_on_message (pc : PahoClient) : PahoClient :=
  {| paho_client_id := paho_client_id pc;
     paho_credentials := paho_credentials pc;
     paho_loop_running := paho_loop_running pc;
     paho_published := paho_published pc;
     paho_subscriptions := paho_subscriptions pc;
     paho_on_message := true |}.

(** [ApplicationLayer.subscribe_to_mqtt]; [sub] is what the paho call
    [subscribe] does.  The handler is installed on the paho client before
    that call (line 361) and stays installed when the call raises; when the
    wrapper holds no paho client the assignment itself raises and nothing
    changes. *)
Definition subscribe_to_mqtt (self : ApplicationLayer) (mqtt_client : option MQTTClient)
    (sub : outcome unit) : bool * ApplicationLayer * option MQTTClient :=
  if negb (client_live mqtt_client) then (false, self, mqtt_client)
  else
    match mqtt_client with
    | Some c =>
      match client c with
      | Some pc =>
        let handled := install_on_message pc in
        match sub with
        | Returns _ =>
          let pc' := {| paho_client_id := paho_client_id handled;
                        paho_credentials := paho_credentials handled;
                        paho_loop_running := paho_loop_running handled;
                        paho_published := paho_published handled;
                        paho_subscriptions :=
                          paho_subscriptions handled ++ [(topic_filter self, 0)];
                        paho_on_message := paho_on_message handled |} in
          (true,
           {| received_messages := received_messages self;
              processed_count := processed_count self;
              device_stats := device_stats self;
              topic_filter := topic_filter self;
              subscribed := true |},
           Some (set_client c (Some pc')))
        | Raises => (false, self, Some (set_client c (Some handled)))
        end
      | None => (false, self, mqtt_client)
      end
    | None => (false, self, mqtt_client)
    end.

(** One row of the data frame: the ISO-8601 text of its timestamp and its
    power. *)
Definition row : Type := (string * Q)%type.

(** [df.head(n)] *)
Definition df_head (n : Z) (df : list row) : list row :=
  if 0 <=? n then take (Z.to_nat n) df
  else take (length df - Z.to_nat (- n))%nat df.

(** The objects the loop of [simulate_device] works on. *)
Record SimState : Type := mkSim {
  sim_stats : LiveStats;
  sim_processor : ApplicationLayer;
  sim_client : option MQTTClient;
}.

Definition make_payload (device_id : string) (r : row) : json :=
  JObj [ ("device_id"%string, JStr device_id);
         ("timestamp"%string, JStr (fst r));
         ("power"%string, JNum (snd r)) ].

Definition make_topic (topic_prefix device_id : string) : string :=
  (topic_prefix ++ "/" ++ device_id ++ "/power")%string.

Section Replay.

Variable json_dumps : json -> string.

(** One iteration of the simulation loop.  [None] is an exception, which
    leaves the loop for the handlers at the end of [simulate_device]. *)
Definition simulate_iteration (device_id topic_prefix : string) (publish_rate : Q)
    (st : SimState) (r : row) (broker_rc : outcome Z) : option SimState :=
  let payload := make_payload device_id r in
  let topic := make_topic topic_prefix device_id in
  (* device layer -> communication layer *)
  st1 ← match sim_client st with
        | Some c =>
          if connected c
          then '(stats', c') ← real_mqtt_publish json_dumps c topic payload
                                 (sim_stats st) broker_rc;
               Some {| sim_stats := stats'; sim_processor := sim_processor st;
                       sim_client := Some c' |}
          else stats' ← fake_mqtt_publish topic payload (sim_stats st);
               Some {| sim_stats := stats'; sim_processor := sim_processor st;
                       sim_client := sim_client st |}
        | None =>
          stats' ← fake_mqtt_publish topic payload (sim_stats st);
          Some {| sim_stats := stats'; sim_processor := sim_processor st;
                  sim_client := sim_client st |}
        end;
  (* communication layer -> application layer, in simulation mode *)
  let st2 :=
    if negb (client_live (sim_client st1))
    then {| sim_stats := sim_stats st1;
            sim_processor := process_json_message (sim_processor st1) topic payload;
            sim_client := sim_client st1 |}
    else st1 in
  (* time.sleep(1.0 / publish_rate) raises on a negative delay *)
  if py_lt (1 / publish_rate) 0 then None else Some st2.

(** [for i, row in sample_df.iterrows(): ...]; [broker i] is what the
    broker call of iteration [i] does. *)
Fixpoint simulation_loop (device_id topic_prefix : string) (publish_rate : Q)
    (broker : nat -> outcome Z) (i : nat) (rows : list row) (st : SimState)
  : option SimState :=
  match rows with
  | [] => Some st
  | r :: rest =>
    match simulate_iteration device_id topic_prefix publish_rate st r (broker i) with
    | Some st' =>
      simulation_loop device_id topic_prefix publish_rate broker (S i) rest st'
    | None => None
    end
  end.

(** [simulate_device], up to the end of its loop; what follows the loop is
    terminal output, a division by the measured wall-clock time included.
    [csv] is what [pd.read_csv] yields ([None]: it raises).  The Python
    function returns [processor]; the statistics and the client are kept here
    as well.  [None] is the [return None] of the exception handlers. *)
Definition simulate_device_state (device_name : string) (csv : option (list row))
    (device_id topic_prefix : string) (sample_size : option Z) (publish_rate : Q)
    (mqtt_client : option MQTTClient) (sub : outcome unit) (broker : nat -> outcome Z)
  : option SimState :=
  df ← csv;
  let stats := LiveStats_init device_id device_name in
  let processor := ApplicationLayer_init (topic_prefix ++ "/+/power") in
  let '(processor, mqtt_client) :=
    if client_live mqtt_client
    then let '(_, p, c) := subscribe_to_mqtt processor mqtt_client sub in (p, c)
    else (processor, mqtt_client) in
  let sample_df := match sample_size with
                   | None => df
                   | Some n => df_head n df
                   end in
  (* estimated_seconds = total_records / publish_rate *)
  if Qeq_bool publish_rate 0 then None
  else simulation_loop device_id topic_prefix publish_rate broker 0 sample_df
         {| sim_stats := stats; sim_processor := processor; sim_client := mqtt_client |}.

Definition simulate_device (device_name : string) (csv : option (list row))
    (device_id topic_prefix : string) (sample_size : option Z) (publish_rate : Q)
    (mqtt_client : option MQTTClient) (sub : outcome unit) (broker : nat -> outcome Z)
  : option ApplicationLayer :=
  sim_processor <$> simulate_device_state device_name csv device_id topic_prefix
                      sample_size publish_rate mqtt_client sub broker.

End Replay.

(* ===================================================================== *)
(** ** The rest of the client, the dashboard and [main] *)
(* ===================================================================== *)

(** [MQTTClient.disconnect]: nothing happens when [self.client] was never
    created. *)
Definition disconnect (self : MQTTClient) : MQTTClient :=
  match client self with
  | Some pc =>
    let stopped := {| paho_client_id := paho_client_id pc;
                      paho_credentials := paho_credentials pc;
                      paho_loop_running := false;
                      paho_published := paho_published pc;
                      paho_subscriptions := paho_subscriptions pc;
                      paho_on_message := paho_on_message pc |} in
    set_connected (set_client self (Some stopped)) false
  | None => self
  end.

(** [l[-n:]] for [n > 0]: the last [n] items, or all of a shorter list. *)
Definition last_items {A : Type} (n : nat) (l : list A) : list A :=
  drop (length l - n) l.

(** The values [print_dashboard] shows under "Recent Power Values":
    [list(stats.recent_powers)[-10:]]. *)
Definition dashboard_recent (stats : LiveStats) : list Q :=
  last_items 10 (recent_powers stats).

(** One entry of the [devices] list of [main]. *)
Record DeviceConfig : Type := mkDevice {
  dc_name : string;
  dc_csv_file : string;
  dc_device_id : string;
  dc_topic_prefix : string;
}.

Definition devices : list DeviceConfig :=
  [ {| dc_name := "Buzdolabı"; dc_csv_file := "fridge_207.csv";
       dc_device_id := "fridge_207"; dc_topic_prefix := "home/appliance" |};
    {| dc_name := "Süpürge"; dc_csv_file := "vacuum_254.csv";
       dc_device_id := "vacuum_254"; dc_topic_prefix := "home/appliance" |} ].

(* ===================================================================== *)
(** ** Binary64 readings *)
(* ===================================================================== *)

(** Where a result depends on how Python's [float] rounds, overflows or
    fails to compare, the exact rationals above say nothing about the
    program.  The tracker, the consumer and the replay loop are therefore
    modelled a second time, with readings in IEEE 754 binary64
    ([PrimFloat.float], the format of Python's [float]): every [+], [/] and
    [*] is the correctly rounded operation the interpreter performs, an
    [int] operand is converted as the interpreter converts it, and [int()],
    [/] and [time.sleep] raise where the interpreter raises.

    [simulate_device] is modelled here as [main] calls it, with
    [mqtt_client=None]: no network thread runs and every reading takes the
    simulated transport. *)
Module Float64.

(** A Python number: an [int] or a [float]. *)
Inductive number : Type :=
  | Int (z : Z)
  | Float (f : float).

(** [float(n)] for an [int] operand of float arithmetic: the nearest
    binary64, ties to even; [OverflowError] ([None]) when the int is too
    large for a finite float. *)
Definition float_of_int (z : Z) : option float :=
  let f := SF2Prim (binary_normalize prec emax z 0 false) in
  if PrimFloat.is_infinity f then None else Some f.

(** [a > b], [a < b] and [a == b] on floats: all false when an operand is
    NaN; [0.0 == -0.0]. *)
Definition float_gt (a b : float) : bool := PrimFloat.ltb b a.
Definition float_lt (a b : float) : bool := PrimFloat.ltb a b.
Definition float_eq (a b : float) : bool := PrimFloat.eqb a b.

(** The builtin [max(a, b)]: the first argument is kept unless the second is
    strictly greater; [min(a, b)] likewise with strictly smaller. *)
Definition py_max (a b : float) : float := if float_gt b a then b else a.
Definition py_min (a b : float) : float := if float_lt b a then b else a.

(** [int(x)] on a float: truncation towards zero; [OverflowError] on an
    infinity and [ValueError] on NaN ([None]). *)
Definition py_int (x : float) : option Z :=
  match Prim2SF x with
  | S754_zero _ => Some 0
  | S754_finite s m e =>
    let v := Z.shiftl (Z.pos m) e in
    Some (if s then - v else v)
  | S754_infinity _ | S754_nan => None
  end.

(** [x / n], [x * n] and [n / x] for a float [x] and an int [n]: the int is
    converted first, then a zero divisor raises [ZeroDivisionError]. *)
Definition float_div_int (x : float) (n : Z) : option float :=
  y ← float_of_int n;
  if float_eq y 0 then None else Some (x / y)%float.

Definition float_mul_int (x : float) (n : Z) : option float :=
  y ← float_of_int n;
  Some (x * y)%float.

Definition int_mul_float (n : Z) (x : float) : option float :=
  y ← float_of_int n;
  Some (y * x)%float.

Definition int_div_float (n : Z) (x : float) : option float :=
  y ← float_of_int n;
  if float_eq x 0 then None else Some (y / x)%float.

(** [x / y] on floats. *)
Definition float_div (x y : float) : option float :=
  if float_eq y 0 then None else Some (x / y)%float.

(** [a / b] on ints (true division), for operands below [2**53] in
    magnitude, where both conversions are exact and the quotient is the
    correctly rounded one the interpreter returns. *)
Definition int_div_int (a b : Z) : option float :=
  x ← float_of_int a;
  y ← float_of_int b;
  if float_eq y 0 then None else Some (x / y)%float.

(** *** [class LiveStats] *)

Record LiveStats : Type := mkLiveStats {
  device_id : string;
  device_name : string;
  message_count : Z;
  total_power : float;
  max_power : float;
  min_power : float;
  current_power : float;
  recent_powers : list float;
}.

(** [LiveStats.__init__] *)
Definition LiveStats_init (device_id device_name : string) : LiveStats :=
  {| device_id := device_id;
     device_name := device_name;
     message_count := 0;
     total_power := 0%float;
     max_power := 0%float;
     min_power := infinity;
     current_power := 0%float;
     recent_powers := [] |}.

(** [LiveStats.add_data], called with a float. *)
Definition add_data (self : LiveStats) (power : float) : LiveStats :=
  {| device_id := device_id self;
     device_name := device_name self;
     message_count := message_count self + 1;
     total_power := (total_power self + power)%float;
     max_power := py_max (max_power self) power;
     min_power := py_min (min_power self) power;
     current_power := power;
     recent_powers := deque_append RECENT_MAXLEN (recent_powers self) power |}.

(** [LiveStats.get_avg_power]: the float quotient, or the int [0]. *)
Definition get_avg_power (self : LiveStats) : option number :=
  if 0 <? message_count self
  then Float <$> float_div_int (total_power self) (message_count self)
  else Some (Int 0).

(** [LiveStats.get_power_bar]; [None] when [int()] or a conversion
    raises. *)
Definition get_power_bar (self : LiveStats) (width : Z) : option (list glyph) :=
  if float_eq (max_power self) 0 then Some (str_mul LIGHT_SHADE width)
  else
    product ← (if float_gt (max_power self) 0
               then Float <$> float_mul_int (current_power self / max_power self) width
               else Some (Int (0 * width)));
    filled ← match product with
             | Int z => Some z
             | Float f => py_int f
             end;
    Some (str_mul FULL_BLOCK filled ++ str_mul LIGHT_SHADE (width - filled)).

(** A sequence of [add_data] calls, in order. *)
Definition feed (s : LiveStats) (ps : list float) : LiveStats :=
  fold_left add_data ps s.

(** *** [class ApplicationLayer], on the payloads of the replay loop *)

(** The payload dict [simulate_device] builds: [device_id] and [timestamp]
    are [str], [power] is a [float]. *)
Record Reading : Type := mkReading {
  rd_device_id : string;
  rd_timestamp : string;
  rd_power : float;
}.

(** One value of [device_stats]. *)
Record DeviceStats : Type := mkDeviceStats {
  ds_message_count : Z;
  ds_total_power : float;
  ds_max_power : float;
  ds_min_power : float;
}.

(** One entry of [received_messages]. *)
Record ReceivedMessage : Type := mkReceived {
  rm_device_id : string;
  rm_timestamp : string;
  rm_power : float;
  rm_topic : string;
}.

Record ApplicationLayer : Type := mkApp {
  received_messages : list ReceivedMessage;
  processed_count : Z;
  device_stats : gmap string DeviceStats;
  topic_filter : string;
  subscribed : bool;
}.

(** [ApplicationLayer.__init__], with [mqtt_client=None]. *)
Definition ApplicationLayer_init (topic_filter : string) : ApplicationLayer :=
  {| received_messages := [];
     processed_count := 0;
     device_stats := ∅;
     topic_filter := topic_filter;
     subscribed := false |}.

Definition fresh_device_stats : DeviceStats :=
  {| ds_message_count := 0; ds_total_power := 0%float;
     ds_max_power := 0%float; ds_min_power := infinity |}.

(** [ApplicationLayer.process_json_message] on such a payload: no
    statement of the [try] block raises (the keys are present, a [str] is
    hashable, float arithmetic and comparison do not raise), and what the
    method prints is computed after the updates, inside the same [try]. *)
Definition process_json_message (self : ApplicationLayer) (topic : string)
    (payload : Reading) : ApplicationLayer :=
  let device_id := rd_device_id payload in
  let timestamp := rd_timestamp payload in
  let power := rd_power payload in
  (* if device_id not in self.device_stats: create the record *)
  let stats := default fresh_device_stats (device_stats self !! device_id) in
  let stats' := {| ds_message_count := ds_message_count stats + 1;
                   ds_total_power := (ds_total_power stats + power)%float;
                   ds_max_power := py_max (ds_max_power stats) power;
                   ds_min_power := py_min (ds_min_power stats) power |} in
  {| received_messages :=
       received_messages self ++
         [ {| rm_device_id := device_id; rm_timestamp := timestamp;
              rm_power := power; rm_topic := topic |} ];
     processed_count := processed_count self + 1;
     device_stats := <[device_id := stats']> (device_stats self);
     topic_filter := topic_filter self;
     subscribed := subscribed self |}.

(** *** [fake_mqtt_publish] and [print_dashboard] *)

(** [fake_mqtt_publish]: the statistics update, then, when something is
    shown, the average and the 30-cell bar.  [None] when one of them
    raises. *)
Definition fake_mqtt_publish (topic : string) (payload : Reading) (stats : LiveStats)
    (verbose show_json : bool) : option LiveStats :=
  let power := rd_power payload in
  let stats' := add_data stats power in
  if verbose || show_json
  then _ ← get_avg_power stats';
       _ ← get_power_bar stats' 30;
       Some stats'
  else Some stats'.

(** [print_dashboard]: what it computes before printing, the average and
    the 50-cell bar. *)
Definition print_dashboard (stats : LiveStats) : option unit :=
  _ ← get_avg_power stats;
  _ ← get_power_bar stats 50;
  Some tt.

(** *** [simulate_device] *)

(** One row of the data frame as the loop reads it: the text of
    [row["timestamp"].isoformat()] and the value of [float(row["power"])],
    each [None] when the expression raises (a timestamp column that was not
    parsed as dates, a power cell that is not a number). *)
Record row : Type := mkRow {
  row_timestamp : option string;
  row_power : option float;
}.

(** [df.head(n)] *)
Definition df_head (n : Z) (df : list row) : list row :=
  if 0 <=? n then take (Z.to_nat n) df
  else take (length df - Z.to_nat (- n))%nat df.

(** The surroundings of one [simulate_device] call: what [pd.read_csv]
    yields ([None]: it raises), whether the user interrupts the run
    ([KeyboardInterrupt]), the delays [time.sleep] refuses beyond the negative
    ones and NaN (an [OverflowError] for a delay the platform cannot
    represent), and the wall-clock time the loop is found to have taken. *)
Record RunEnv : Type := mkRunEnv {
  read_csv : option (list row);
  interrupted : bool;
  sleep_refuses : float -> bool;
  total_time : float;
}.

(** [time.sleep(1.0 / publish_rate)] *)
Definition sleep_for_rate (env : RunEnv) (publish_rate : float) : option unit :=
  delay ← float_div 1 publish_rate;
  if float_lt delay 0 || negb (float_eq delay delay) || sleep_refuses env delay
  then None
  else Some tt.

(** The objects the loop works on. *)
Record SimState : Type := mkSim {
  sim_stats : LiveStats;
  sim_processor : ApplicationLayer;
}.

Definition make_topic (topic_prefix device_id : string) : string :=
  (topic_prefix ++ "/" ++ device_id ++ "/power")%string.

Definition PROGRESS_BAR_LENGTH : Z := 50.

(** The progress bar of the loop for the record of index [i]. *)
Definition progress_bar (i total_records : Z) : option (list glyph) :=
  ratio ← int_div_int (i + 1) total_records;
  progress ← float_mul_int ratio 100;
  scaled ← int_mul_float PROGRESS_BAR_LENGTH progress;
  quotient ← float_div_int scaled 100;
  filled ← py_int quotient;
  Some (str_mul FULL_BLOCK filled ++ str_mul LIGHT_SHADE (PROGRESS_BAR_LENGTH - filled)).

(** One iteration of the simulation loop, for the row of index [i].
    [None] is an exception, which leaves the loop for the handlers at the
    end of [simulate_device]. *)
Definition simulate_iteration (env : RunEnv) (device_id topic_prefix : string)
    (publish_rate : float) (total_records dashboard_update_interval : Z)
    (i : Z) (st : SimState) (r : row) : option SimState :=
  timestamp ← row_timestamp r;
  power ← row_power r;
  let payload := {| rd_device_id := device_id; rd_timestamp := timestamp;
                    rd_power := power |} in
  let topic := make_topic topic_prefix device_id in
  let stats := sim_stats st in
  let processor := sim_processor st in
  let is_last := i + 1 =? total_records in
  _ ← (if ((i + 1) mod dashboard_update_interval =? 0) || is_last
       then print_dashboard stats else Some tt);
  let show_json := (message_count stats =? 1) || (message_count stats mod 1000 =? 0)
                   || is_last in
  let show_summary := message_count stats mod 100 =? 0 in
  (* device layer -> communication layer *)
  stats' ← fake_mqtt_publish topic payload stats show_summary show_json;
  (* communication layer -> application layer *)
  let processor' := process_json_message processor topic payload in
  _ ← (if ((i + 1) mod 100 =? 0) || is_last
       then _ ← progress_bar i total_records;
            _ ← get_avg_power stats';
            Some tt
       else Some tt);
  _ ← sleep_for_rate env publish_rate;
  Some {| sim_stats := stats'; sim_processor := processor' |}.

(** [for i, row in sample_df.iterrows(): ...] *)
Fixpoint simulation_loop (env : RunEnv) (device_id topic_prefix : string)
    (publish_rate : float) (total_records dashboard_update_interval : Z)
    (i : Z) (rows : list row) (st : SimState) : option SimState :=
  match rows with
  | [] => Some st
  | r :: rest =>
    st' ← simulate_iteration env device_id topic_prefix publish_rate total_records
            dashboard_update_interval i st r;
    simulation_loop env device_id topic_prefix publish_rate total_records
      dashboard_update_interval (i + 1) rest st'
  end.

(** [simulate_device] with [mqtt_client=None].  The Python function
    returns [processor]; the tracker is kept here as well.  [None] is the
    [return None] of the three exception handlers. *)
Definition simulate_device_state (env : RunEnv) (device_name device_id
    topic_prefix : string) (sample_size : option Z) (publish_rate : float)
  : option SimState :=
  if interrupted env then None
  else
    df ← read_csv env;
    let stats := LiveStats_init device_id device_name in
    let processor := ApplicationLayer_init (topic_prefix ++ "/+/power") in
    let sample_df := match sample_size with
                     | None => df
                     | Some n => df_head n df
                     end in
    let total_records := Z.of_nat (length sample_df) in
    (* estimated_seconds = total_records / publish_rate *)
    _ ← int_div_float total_records publish_rate;
    let dashboard_update_interval := if 1000 <? total_records then 100 else 1 in
    st ← simulation_loop env device_id topic_prefix publish_rate total_records
           dashboard_update_interval 0 sample_df
           {| sim_stats := stats; sim_processor := processor |};
    _ ← print_dashboard (sim_stats st);
    _ ← get_avg_power (sim_stats st);
    (* total_records / total_time *)
    _ ← int_div_float total_records (total_time env);
    Some st.

Definition simulate_device (env : RunEnv) (device_name device_id topic_prefix : string)
    (sample_size : option Z) (publish_rate : float) : option ApplicationLayer :=
  sim_processor <$> simulate_device_state env device_name device_id topic_prefix
                      sample_size publish_rate.

(** *** [main] *)

Definition PUBLISH_RATE : float := 10000%float.

(** One block of the per-device part of the final summary: the statistics
    of the device's record, or only the length of the log when the consumer
    has no record under the device's id. *)
Inductive summary_row : Type :=
  | Detailed (name id : string) (count : Z) (avg : number) (max min : float)
  | CountOnly (name id : string) (messages : Z).

(** The final summary of [main]. *)
Record Summary : Type := mkSummary {
  sm_devices : Z;
  sm_total_messages : Z;
  sm_rows : list summary_row;
}.

(** The summary block for the [i]-th collected processor: it is labelled
    with [devices[i]].  [None] is an exception ([IndexError], or the division
    raising). *)
Definition summary_row_of (i : nat) (processor : ApplicationLayer) : option summary_row :=
  device ← devices !! i;
  match device_stats processor !! dc_device_id device with
  | Some ds =>
    avg ← (if 0 <? ds_message_count ds
           then Float <$> float_div_int (ds_total_power ds) (ds_message_count ds)
           else Some (Int 0));
    Some (Detailed (dc_name device) (dc_device_id device) (ds_message_count ds)
            avg (ds_max_power ds) (ds_min_power ds))
  | None =>
    Some (CountOnly (dc_name device) (dc_device_id device)
            (Z.of_nat (length (received_messages processor))))
  end.

(** [main] with [USE_REAL_MQTT = False], as the source has it: every device
    is simulated without a client, the processors that were returned are
    collected, and the summary is computed from them.  [envs] gives the
    surroundings of the run on each data file. *)
Definition all_processors (envs : string -> RunEnv) : list ApplicationLayer :=
  omap (fun device =>
          simulate_device (envs (dc_csv_file device)) (dc_name device)
            (dc_device_id device) (dc_topic_prefix device) None PUBLISH_RATE)
       devices.

Definition main (envs : string -> RunEnv) : option Summary :=
  let processors := all_processors envs in
  rows ← mapM (fun ip => summary_row_of (fst ip) (snd ip))
              (imap (fun i p => (i, p)) processors);
  Some {| sm_devices := Z.of_nat (length processors);
          sm_total_messages :=
            fold_left Z.add
              (map (fun p => Z.of_nat (length (received_messages p))) processors) 0;
          sm_rows := rows |}.

(** *** Notions used to state the properties *)

(** A float that is a number: [x == x] fails for NaN only. *)
Definition is_number (x : float) : Prop := float_eq x x = true.

(** [a <= b] on floats, as a proposition. *)
Definition float_le (a b : float) : Prop := PrimFloat.leb a b = true.

(** [sum] as [add_data] accumulates it: from [0.0], left to right, every
    addition rounded. *)
Definition float_sum (ps : list float) : float :=
  fold_left PrimFloat.add ps 0%float.

(** The bar as the specification words it: the ratio [current/max] clamped
    to [0,1] (0 when [max_power == 0]), rendered on [width] cells. *)
Definition clamp01 (r : float) : float :=
  if float_lt r 0 then 0%float else if float_gt r 1 then 1%float else r.

Definition spec_ratio (s : LiveStats) : float :=
  if float_eq (max_power s) 0 then 0%float
  else clamp01 (current_power s / max_power s).

Definition spec_power_bar (s : LiveStats) (width : Z) : option (list glyph) :=
  scaled ← float_mul_int (spec_ratio s) width;
  filled ← py_int scaled;
  Some (str_mul FULL_BLOCK filled ++ str_mul LIGHT_SHADE (width - filled)).

(** The rows [simulate_device] replays, and what a row that converts
    carries. *)
Definition sample_rows (sample_size : option Z) (df : list row) : list row :=
  match sample_size with
  | Some n => df_head n df
  | None => df
  end.

Definition reading_of (device_id : string) (r : row) : option Reading :=
  timestamp ← row_timestamp r;
  power ← row_power r;
  Some {| rd_device_id := device_id; rd_timestamp := timestamp; rd_power := power |}.

(** The log entry the consumer writes for a reading, and the per-device
    record that mirrors a tracker. *)
Definition log_entry (topic_prefix : string) (p : Reading) : ReceivedMessage :=
  {| rm_device_id := rd_device_id p; rm_timestamp := rd_timestamp p;
     rm_power := rd_power p; rm_topic := make_topic topic_prefix (rd_device_id p) |}.

Definition record_like (s : LiveStats) : DeviceStats :=
  {| ds_message_count := message_count s; ds_total_power := total_power s;
     ds_max_power := max_power s; ds_min_power := min_power s |}.

(** A sequence of [process_json_message] calls on one topic. *)
Definition process_readings (self : ApplicationLayer) (topic : string)
    (ps : list Reading) : ApplicationLayer :=
  fold_left (fun a p => process_json_message a topic p) ps self.

(** The delays [time.sleep] refuses: negative, NaN, or beyond what the
    platform accepts. *)
Definition delay_refused (env : RunEnv) (delay : float) : Prop :=
  float_lt delay 0 = true \/ float_eq delay delay = false \/
  sleep_refuses env delay = true.

(** The run of [simulate_device] that [main] starts for a device, and the
    summary block that shows the figures of its tracker. *)
Definition run_of (envs : string -> RunEnv) (device : DeviceConfig) : option SimState :=
  simulate_device_state (envs (dc_csv_file device)) (dc_name device)
    (dc_device_id device) (dc_topic_prefix device) None PUBLISH_RATE.

Definition replayed (st : SimState) : Z := message_count (sim_stats st).

Definition own_block (device : DeviceConfig) (st : SimState) : summary_row :=
  if replayed st =? 0
  then CountOnly (dc_name device) (dc_device_id device) 0
  else Detailed (dc_name device) (dc_device_id device) (replayed st)
         (default (Int 0) (get_avg_power (sim_stats st)))
         (max_power (sim_stats st)) (min_power (sim_stats st)).

(** A row with a timestamp and a power that convert. *)
Definition good_row (timestamp : string) (power : float) : row :=
  {| row_timestamp := Some timestamp; row_power := Some power |}.

End Float64.

(* ===================================================================== *)
(** ** The wire encoding *)
(* ===================================================================== *)

(** [MQTTClient.publish] writes the payload with [json.dumps] and
    [ApplicationLayer._on_mqtt_message] reads it back with [json.loads].
    Both are library code.  What follows is a writer and a reader of the one
    message the pipeline sends, the three-field object of the specification's
    message encoding, laid out as the library documents it. *)
Module Wire.

Import Float64.

(** Modelled from the spec: the double quote. *)
Definition QUOTE : ascii := "034"%char.

(** Modelled from the spec: the backslash. *)
Definition BACKSLASH : ascii := "\"%char.

(** Modelled from the spec: a decimal numeral, written and read. *)
Definition write_digits (n : N) : string := NilEmpty.string_of_uint (N.to_uint n).




(** Modelled from the spec: a hexadecimal digit, in lower case. *)
Definition hex_digit (n : N) : ascii :=
  if (n <? 10)%N then ascii_of_N (48 + n) else ascii_of_N (87 + n).

(** Modelled from the spec: the text of one character of a string value.
    Printable ASCII stands for itself, the quote and the backslash are escaped
    with a backslash, the usual control characters have their short escapes
    and every other character is written [\u00XX] (strings are sequences of
    8-bit characters here). *)
Definition escape_char (c : ascii) : string :=
  let n := N_of_ascii c in
  if (n =? 34)%N then String BACKSLASH (String QUOTE EmptyString)
  else if (n =? 92)%N then String BACKSLASH (String BACKSLASH EmptyString)
  else if (n =? 10)%N then String BACKSLASH "n"
  else if (n =? 13)%N then String BACKSLASH "r"
  else if (n =? 9)%N then String BACKSLASH "t"
  else if (n =? 8)%N then String BACKSLASH "b"
  else if (n =? 12)%N then String BACKSLASH "f"
  else if (32 <=? n)%N && (n <? 127)%N then String c EmptyString
  else String BACKSLASH
         (String "u" (String "0" (String "0"
            (String (hex_digit (n / 16)) (String (hex_digit (n mod 16)) EmptyString))))).

(** Modelled from the spec: the escaped text of a string. *)
Fixpoint write_string_body (s : string) : string :=
  match s with
  | EmptyString => EmptyString
  | String c rest => (escape_char c ++ write_string_body rest)%string
  end.

(** Modelled from the spec: a string value, between quotes. *)
Definition write_string (s : string) : string :=
  String QUOTE (write_string_body s ++ String QUOTE EmptyString).





(** Modelled from the spec: [p * 2**k]. *)
Fixpoint double_n (k : nat) (p : positive) : positive :=
  match k with
  | O => p
  | S k' => xO (double_n k' p)
  end.


(** Modelled from the spec: the sign of a number. *)
Definition write_sign (negative : bool) : string :=
  if negative then "-"%string else EmptyString.

(** Modelled from the spec: the text of a number.  A float has an exact
    decimal value: [m * 2**e] is the integer [m * 2**e] when [e >= 0] and
    [m * 5**(-e) / 10**(-e)] otherwise; it is written as that integer
    followed by the decimal exponent, a text that [json.loads] reads back as
    the same float.  (Python writes the shortest numeral that reads back as
    the float; the digits differ, the value read does not.)  Zeros and the
    values beyond the JSON grammar are written as [json.dumps] writes
    them. *)
Definition write_float (f : float) : string :=
  match Prim2SF f with
  | S754_nan => "NaN"
  | S754_infinity s => write_sign s ++ "Infinity"
  | S754_zero s => write_sign s ++ "0.0"
  | S754_finite s m e =>
    let '(n, k) := if 0 <=? e
                   then (N.pos (double_n (Z.to_nat e) m), 0%N)
                   else ((N.pos m * 5 ^ Z.to_N (- e))%N, Z.to_N (- e)) in
    write_sign s ++ write_digits n ++ "e-" ++ write_digits k
  end.




(** Modelled from the spec: the fixed text around the three values, as
    [json.dumps] lays out the payload dict: the fields in the order
    [device_id], [timestamp], [power], separated by [", "] and [": "]. *)
Definition FIELD_DEVICE_ID : string := ("{" ++ write_string "device_id" ++ ": ")%string.
(** Modelled from the spec: the text before the timestamp. *)
Definition FIELD_TIMESTAMP : string := (", " ++ write_string "timestamp" ++ ": ")%string.
(** Modelled from the spec: the text before the power. *)
Definition FIELD_POWER : string := (", " ++ write_string "power" ++ ": ")%string.

(** Modelled from the spec: the wire encoding of a Reading. *)
Definition encode (r : Reading) : string :=
  (FIELD_DEVICE_ID ++ write_string (rd_device_id r)
   ++ FIELD_TIMESTAMP ++ write_string (rd_timestamp r)
   ++ FIELD_POWER ++ write_float (rd_power r) ++ "}")%string.




End Wire.

(* ===================================================================== *)
(** ** Notions used to state the properties *)
(* ===================================================================== *)

(** States of a consumer reached from construction by
    [process_json_message] calls with any topic and payload. *)
Inductive app_reachable : ApplicationLayer -> Prop :=
  | app_reach_init topic_filter : app_reachable (ApplicationLayer_init topic_filter)
  | app_reach_step self topic payload :
      app_reachable self -> app_reachable (process_json_message self topic payload).

(** The two objects [main] wires together in networked mode. *)
Record Pipeline : Type := mkPipeline {
  pl_client : MQTTClient;
  pl_consumer : ApplicationLayer;
}.

(** A [publish] call, and the delivery of a message by the network thread,
    as steps of the pair. *)
Definition pipeline_publish (json_dumps : json -> string) (w : Pipeline)
    (topic : string) (payload : json) (qos : Z) (retain : bool)
    (broker_rc : outcome Z) : bool * Pipeline :=
  let '(ok, c) := publish json_dumps (pl_client w) topic payload qos retain broker_rc in
  (ok, {| pl_client := c; pl_consumer := pl_consumer w |}).

(** The messages handed to the broker so far. *)
Definition published (c : MQTTClient) : list MqttMessage :=
  match client c with
  | Some pc => paho_published pc
  | None => []
  end.

(** The record a call finds for a key (a fresh one when there is none), and
    what the two stages of [process_json_message] make of it. *)
Definition record_of (self : ApplicationLayer) (key : dict_key) : DeviceStats :=
  default fresh_device_stats (device_stats self !! key).

Definition counted (ds : DeviceStats) : DeviceStats :=
  {| ds_message_count := ds_message_count ds + 1;
     ds_total_power := ds_total_power ds;
     ds_max_power := ds_max_power ds;
     ds_min_power := ds_min_power ds |}.

Definition accounted (ds : DeviceStats) (p : Q) : DeviceStats :=
  {| ds_message_count := ds_message_count ds + 1;
     ds_total_power := (ds_total_power ds + p)%Q;
     ds_max_power := py_max (ds_max_power ds) p;
     ds_min_power := x_min (ds_min_power ds) p |}.

(** The key and the power under which a payload is accepted: it is a dict,
    its device id is hashable and its power is a number that float
    arithmetic takes. *)
Definition accepted (payload : json) : option (dict_key * Q) :=
  match payload with
  | JObj fields =>
    key ← as_key (dict_get fields "device_id" (JStr "unknown"));
    p ← as_number (dict_get fields "power" (JNum 0));
    Some (key, p)
  | _ => None
  end.

(** A sequence of [process_json_message] calls, and of deliveries. *)
Definition process_all (self : ApplicationLayer) (calls : list (string * json))
  : ApplicationLayer :=
  fold_left (fun a c => process_json_message a (fst c) (snd c)) calls self.

Definition deliver_all (json_loads : string -> option json) (self : ApplicationLayer)
    (msgs : list MqttMessage) : ApplicationLayer :=
  fold_left (_on_mqtt_message json_loads) msgs self.

(** The entries of the log filed under a key, and the sum of their powers. *)
Definition filed_under (key : dict_key) (m : ReceivedMessage) : bool :=
  bool_decide (as_key (rm_device_id m) = Some key).

Definition logged_for (key : dict_key) (log : list ReceivedMessage)
  : list ReceivedMessage :=
  List.filter (filed_under key) log.

Definition logged_power (m : ReceivedMessage) : Q :=
  default 0%Q (as_number (rm_power m)).

(** Two trackers with the same order-independent statistics: the count
    and the two extremes, which are found by comparisons alone. *)
Definition same_statistics (s t : LiveStats) : Prop :=
  message_count s = message_count t /\
  (max_power s == max_power t)%Q /\
  x_eq (min_power s) (min_power t).

(** What every record of a reachable consumer satisfies, against the log. *)
Definition record_agrees (log : list ReceivedMessage) (key : dict_key)
    (ds : DeviceStats) : Prop :=
  1 <= ds_message_count ds /\
  Z.of_nat (length (logged_for key log)) <= ds_message_count ds /\
  (0 <= ds_max_power ds)%Q /\
  Forall (fun m => x_le (ds_min_power ds) (Fin (logged_power m)) /\
                   (logged_power m <= ds_max_power ds)%Q)
         (logged_for key log).

(** Surroundings in which the acknowledgment arrives at the third poll. *)
Definition env_ack_at_third_poll : ConnectEnv :=
  {| ctor_raises := false; tcp_connect_raises := false;
     clock := fun k => (inject_Z (Z.of_nat k) / 10)%Q;
     arrivals := fun k => if (k =? 2)%nat then [ConnAck 0] else [] |}.

Definition fridge : DeviceConfig :=
  {| dc_name := "Buzdolabı"; dc_csv_file := "fridge_207.csv";
     dc_device_id := "fridge_207"; dc_topic_prefix := "home/appliance" |}.

Definition vacuum : DeviceConfig :=
  {| dc_name := "Süpürge"; dc_csv_file := "vacuum_254.csv";
     dc_device_id := "vacuum_254"; dc_topic_prefix := "home/appliance" |}.

(* ===================================================================== *)
(** * Properties *)
(* ===================================================================== *)

(** ** Comparisons, [max] and [min] *)


Lemma py_gt_true a b : py_gt a b = true <-> (b < a)%Q.
Proof.
  unfold py_gt. rewrite Qgt_alt.
  destruct (a ?= b)%Q; intuition congruence.
Qed.

Lemma py_gt_false a b : py_gt a b = false <-> (a <= b)%Q.
Proof.
  unfold py_gt. rewrite Qle_alt.
  destruct (a ?= b)%Q; intuition congruence.
Qed.

Lemma py_lt_true a b : py_lt a b = true <-> (a < b)%Q.
Proof.
  unfold py_lt. rewrite Qlt_alt.
  destruct (a ?= b)%Q; intuition congruence.
Qed.

Lemma py_lt_false a b : py_lt a b = false <-> (b <= a)%Q.
Proof.
  unfold py_lt. rewrite Qle_alt, <- (Qcompare_antisym a b).
  destruct (a ?= b)%Q; simpl; intuition congruence.
Qed.

Lemma py_max_spec a b :
  ((a < b)%Q /\ py_max a b = b) \/ ((b <= a)%Q /\ py_max a b = a).
Proof.
  unfold py_max. destruct (py_gt b a) eqn:E.
  - left. apply py_gt_true in E. auto.
  - right. apply py_gt_false in E. auto.
Qed.

Lemma py_min_spec a b :
  ((b < a)%Q /\ py_min a b = b) \/ ((a <= b)%Q /\ py_min a b = a).
Proof.
  unfold py_min. destruct (py_lt b a) eqn:E.
  - left. apply py_lt_true in E. auto.
  - right. apply py_lt_false in E. auto.
Qed.

(** Case analysis on every [Qmax], [Qmin], [py_max] and [py_min] in sight,
    then linear arithmetic. *)
Ltac split_on_max a b :=
  let m := fresh "m" in
  destruct (Q.max_spec a b) as [[? ?]|[? ?]];
  set (m := Qmax a b) in *; clearbody m.

Ltac split_on_min a b :=
  let m := fresh "m" in
  destruct (Q.min_spec a b) as [[? ?]|[? ?]];
  set (m := Qmin a b) in *; clearbody m.

Ltac split_on_py_max a b :=
  let m := fresh "m" in
  destruct (py_max_spec a b) as [[? ?]|[? ?]];
  set (m := py_max a b) in *; clearbody m; subst m.

Ltac split_on_py_min a b :=
  let m := fresh "m" in
  destruct (py_min_spec a b) as [[? ?]|[? ?]];
  set (m := py_min a b) in *; clearbody m; subst m.

Ltac split_minmax :=
  repeat match goal with
  | |- context [Qmax ?a ?b] => split_on_max a b
  | _ : context [Qmax ?a ?b] |- _ => split_on_max a b
  | |- context [Qmin ?a ?b] => split_on_min a b
  | _ : context [Qmin ?a ?b] |- _ => split_on_min a b
  | |- context [py_max ?a ?b] => split_on_py_max a b
  | _ : context [py_max ?a ?b] |- _ => split_on_py_max a b
  | |- context [py_min ?a ?b] => split_on_py_min a b
  | _ : context [py_min ?a ?b] |- _ => split_on_py_min a b
  end.

(** ** [LiveStats]: what a sequence of [add_data] calls leaves *)

Section FeedFacts.

Variable s : LiveStats.

Lemma feed_snoc ps p : feed s (ps ++ [p]) = add_data (feed s ps) p.
Proof. unfold feed. apply fold_left_app. Qed.

Lemma feed_message_count ps :
  message_count (feed s ps) = message_count s + Z.of_nat (length ps).
Proof.
  induction ps as [|p ps IH] using rev_ind; simpl; [lia|].
  rewrite feed_snoc, length_app. simpl. rewrite IH. lia.
Qed.

End FeedFacts.

(** After any call the current value lies between the recorded extremes. *)
Lemma add_data_bounds s p :
  x_le (min_power (add_data s p)) (Fin (current_power (add_data s p))) /\
  (current_power (add_data s p) <= max_power (add_data s p))%Q.
Proof.
  simpl. split.
  - unfold x_min, x_lt. destruct (min_power s) as [m|]; simpl; [|lra].
    destruct (py_lt p m) eqn:E; simpl; [lra|].
    apply py_lt_false in E. exact E.
  - split_minmax; lra.
Qed.

Lemma reachable_feed id name ps : reachable (feed (LiveStats_init id name) ps).
Proof.
  induction ps as [|p ps IH] using rev_ind.
  - apply reach_init.
  - rewrite feed_snoc. apply reach_add, IH.
Qed.

Lemma reachable_is_feed s :
  reachable s -> exists id name ps, s = feed (LiveStats_init id name) ps.
Proof.
  induction 1 as [id name|s p _ (id & name & ps & ->)].
  - exists id, name, []. reflexivity.
  - exists id, name, (ps ++ [p]). symmetry. apply feed_snoc.
Qed.

Lemma reachable_message_count s : reachable s -> 0 <= message_count s.
Proof. induction 1; simpl; lia. Qed.

Lemma reachable_max_nonneg s : reachable s -> (0 <= max_power s)%Q.
Proof. induction 1; simpl; [lra|]. split_minmax; lra. Qed.

Lemma reachable_current_le_max s : reachable s -> (current_power s <= max_power s)%Q.
Proof. destruct 1; simpl; [lra|]. split_minmax; lra. Qed.

(** C3: in every state reached from a fresh tracker by [add_data] calls with
    arbitrary readings, once [message_count >= 1] the current value lies
    between the recorded minimum and maximum. *)
Theorem reachable_current_between (s : LiveStats) :
  reachable s -> 1 <= message_count s ->
  x_le (min_power s) (Fin (current_power s)) /\
  (current_power s <= max_power s)%Q.
Proof.
  intros Hs Hn. destruct Hs as [id name|s p _].
  - simpl in Hn. lia.
  - apply add_data_bounds.
Qed.

Lemma reachable_current_between_witness :
  let s := feed (LiveStats_init "vacuum_254" "Vacuum") [(-3)%Q; 120%Q; (7 # 2)%Q] in
  x_le (min_power s) (Fin (current_power s)) /\
  (current_power s <= max_power s)%Q.
Proof.
  intros s. apply (reachable_current_between s).
  - apply reachable_feed.
  - vm_compute. discriminate.
Defined.

(** The scenario of the specification: device [fridge_207], readings 100,
    150 and 50. *)
Example scenario_fridge_207 :
  let s := feed (LiveStats_init "fridge_207" "Fridge") [100%Q; 150%Q; 50%Q] in
  message_count s = 3 /\ (max_power s == 150)%Q /\ x_eq (min_power s) (Fin 50) /\
  (current_power s == 50)%Q /\ (get_avg_power s == 100)%Q.
Proof. vm_compute. repeat split. Qed.

(** ** The window of recent readings *)

Lemma deque_append_window {A : Type} (l : list A) (x : A) :
  deque_append RECENT_MAXLEN (drop (length l - RECENT_MAXLEN) l) x
  = drop (length (l ++ [x]) - RECENT_MAXLEN) (l ++ [x]).
Proof.
  unfold deque_append. rewrite !length_app, length_drop. simpl length.
  destruct (Nat.ltb_spec RECENT_MAXLEN
              (length l - (length l - RECENT_MAXLEN) + 1)) as [Hfull|Hroom].
  - assert (Hlen : (RECENT_MAXLEN <= length l)%nat) by lia.
    replace (length l + 1 - RECENT_MAXLEN)%nat
      with (S (length l - RECENT_MAXLEN)) by lia.
    rewrite <- drop_app_le by lia.
    generalize (l ++ [x]) (length l - RECENT_MAXLEN)%nat. intros l' k.
    revert k. induction l' as [|y l' IH]; intros [|k]; simpl; try reflexivity.
    + apply (IH k).
  - replace (length l - RECENT_MAXLEN)%nat with 0%nat by lia.
    replace (length l + 1 - RECENT_MAXLEN)%nat with 0%nat by lia.
    reflexivity.
Qed.

(** C5: after [n] calls of [add_data] on a fresh tracker, [recent_powers]
    holds the last [min(n, 20)] readings in arrival order, so never more than
    20. *)
Theorem recent_powers_window (id name : string) (ps : list Q) :
  let s := feed (LiveStats_init id name) ps in
  recent_powers s = drop (length ps - 20) ps /\
  length (recent_powers s) = Nat.min (length ps) 20.
Proof.
  intros s. subst s.
  assert (H : recent_powers (feed (LiveStats_init id name) ps)
              = drop (length ps - 20) ps).
  { induction ps as [|p ps IH] using rev_ind; [reflexivity|].
    rewrite feed_snoc. simpl recent_powers. rewrite IH.
    apply (deque_append_window ps p). }
  split; [exact H|]. rewrite H, length_drop. lia.
Qed.

(** ** The average *)



(** ** The application layer *)

(** What one call does to the two counters: both move together, or neither
    moves (the handler fired). *)
Lemma process_json_message_counters self topic payload :
  let self' := process_json_message self topic payload in
  (processed_count self' = processed_count self + 1 /\
   length (received_messages self') = S (length (received_messages self))) \/
  (processed_count self' = processed_count self /\
   received_messages self' = received_messages self).
Proof.
  unfold process_json_message.
  destruct payload as [| | | | |fields]; simpl; auto.
  destruct (as_key (dict_get fields "device_id" (JStr "unknown"))) as [key|]; auto.
  destruct (as_number (dict_get fields "power" (JNum 0))) as [p|]; simpl; auto.
  left. split; [reflexivity|]. rewrite length_app. simpl. lia.
Qed.

(** A payload whose power is a string makes the handler fire after the
    per-device counter was incremented: the device record exists with
    [message_count = 1] while nothing was logged or counted. *)
Example handler_fires_midway :
  let self := process_json_message (ApplicationLayer_init "home/appliance/+/power")
                "home/appliance/fridge_207/power"
                (JObj [("device_id"%string, JStr "fridge_207");
                       ("power"%string, JStr "high")]) in
  processed_count self = 0 /\ received_messages self = [] /\
  ds_message_count <$> device_stats self !! KStr "fridge_207" = Some 1.
Proof. vm_compute. repeat split. Qed.

(** C10: in every state reached from construction by
    [process_json_message] calls, handler firings included,
    [processed_count] is the length of [received_messages]. *)
Theorem processed_count_is_log_length (self : ApplicationLayer) :
  app_reachable self ->
  processed_count self = Z.of_nat (length (received_messages self)).
Proof.
  induction 1 as [tf|self topic payload _ IH]; [reflexivity|].
  destruct (process_json_message_counters self topic payload) as [[Hc Hl]|[Hc Hl]].
  - rewrite Hc, Hl, IH. lia.
  - rewrite Hc, Hl, IH. reflexivity.
Qed.

Lemma processed_count_is_log_length_witness :
  let self :=
    process_json_message
      (process_json_message
         (process_json_message (ApplicationLayer_init "home/appliance/+/power")
            "home/appliance/fridge_207/power"
            (JObj [("device_id"%string, JStr "fridge_207");
                   ("timestamp"%string, JStr "2025-12-08T10:00:00");
                   ("power"%string, JNum 100)]))
         "home/appliance/fridge_207/power"
         (JObj [("device_id"%string, JStr "fridge_207");
                ("power"%string, JStr "high")]))
      "home/appliance/vacuum_254/power" (JArr [JNum 1]) in
  processed_count self = Z.of_nat (length (received_messages self)).
Proof.
  intros self. apply (processed_count_is_log_length self).
  repeat apply app_reach_step. apply app_reach_init.
Defined.

(** ** The networked client *)

(** C7: with [connected = false], [publish] returns [False] and changes
    nothing: the client, the list of messages handed to the broker and the
    consumer's [processed_count] are as before. *)
Theorem publish_not_connected (json_dumps : json -> string) (w : Pipeline)
    (topic : string) (payload : json) (qos : Z) (retain : bool)
    (broker_rc : outcome Z) :
  connected (pl_client w) = false ->
  publish json_dumps (pl_client w) topic payload qos retain broker_rc
  = (false, pl_client w) /\
  let '(ok, w') := pipeline_publish json_dumps w topic payload qos retain broker_rc in
  ok = false /\ w' = w /\
  published (pl_client w') = published (pl_client w) /\
  processed_count (pl_consumer w') = processed_count (pl_consumer w).
Proof.
  intros Hoff.
  assert (H : publish json_dumps (pl_client w) topic payload qos retain broker_rc
              = (false, pl_client w))
    by (unfold publish; rewrite Hoff; reflexivity).
  split; [exact H|].
  unfold pipeline_publish. rewrite H. destruct w; simpl. repeat split.
Qed.

Lemma publish_not_connected_witness :
  let c := MQTTClient_init "4242" "broker.hivemq.com" 1883 None None None in
  let w := {| pl_client := c;
              pl_consumer := ApplicationLayer_init "home/appliance/+/power" |} in
  let payload := make_payload "fridge_207" ("2025-12-08T10:00:00"%string, 100%Q) in
  publish (fun _ => "{}"%string) c "home/appliance/fridge_207/power" payload 0 false
    (Returns 0) = (false, c).
Proof.
  intros c w payload.
  apply (publish_not_connected (fun _ => "{}"%string) w
           "home/appliance/fridge_207/power" payload 0 false (Returns 0)).
  reflexivity.
Defined.

(** A connected client does hand the message over: the guard is what
    keeps the disconnected call silent. *)
Example publish_connected_sends :
  let pc := {| paho_client_id := "sim"; paho_credentials := None;
               paho_loop_running := true; paho_published := [];
               paho_subscriptions := []; paho_on_message := false |} in
  let c := {| broker_host := "localhost"; broker_port := 1883; username := None;
              password := None; client_id := "sim"; client := Some pc;
              connected := true |} in
  let '(ok, c') := publish (fun _ => "{}"%string) c "t" JNull 0 false (Returns 0) in
  ok = true /\ length (published c') = 1%nat.
Proof. vm_compute. split; reflexivity. Qed.

(** ** Connecting *)

(** Callbacks other than a successful acknowledgment leave a disconnected
    client disconnected. *)
Lemma run_callbacks_no_ack self es :
  connected self = false ->
  Forall (fun e => e <> ConnAck 0) es ->
  connected (run_callbacks self es) = false /\
  client (run_callbacks self es) = client self.
Proof.
  unfold run_callbacks. revert self.
  induction es as [|e es IH]; intros self Hoff Hes; simpl; [auto|].
  inversion Hes as [|? ? He Hes']; subst.
  assert (H1 : connected (run_callback self e) = false /\
               client (run_callback self e) = client self).
  { destruct e as [rc|rc]; simpl; [|auto].
    unfold _on_connect. destruct (Z.eqb_spec rc 0) as [->|]; [congruence|auto]. }
  destruct H1 as [Hc Hcl]. destruct (IH _ Hc Hes') as [Hc' Hcl'].
  split; [exact Hc' | congruence].
Qed.

Section ConnectTimeout.

Variable env : ConnectEnv.
Variable last : nat.
Hypothesis no_ack :
  forall k, (k <= last)%nat -> Forall (fun e => e <> ConnAck 0) (arrivals env k).

(** Once the clock has passed the timeout at reading [k + d + 1], the
    wait loop started at reading [k] ends within [d + 1] iterations, still
    disconnected, provided no successful acknowledgment is delivered before
    those readings of the flag. *)
Lemma wait_for_ack_times_out start d : forall k fuel self,
  connected self = false ->
  (CONNECT_TIMEOUT <= clock env (S (k + d)) - start)%Q ->
  (d < fuel)%nat ->
  (k + d <= last)%nat ->
  exists k' self',
    wait_for_ack env start fuel k self = Some (k', self') /\
    (k' <= S (k + d))%nat /\
    connected self' = false /\ client self' = client self.
Proof.
  induction d as [|d IH]; intros k fuel self Hoff Hlate Hfuel Hlast;
    (destruct fuel as [|fuel]; [lia|]); simpl;
    destruct (run_callbacks_no_ack self (arrivals env k) Hoff (no_ack k ltac:(lia)))
      as [Hoff1 Hcl1];
    rewrite Hoff1.
  - replace (k + 0)%nat with k in Hlate by lia.
    replace (py_lt (clock env (S k) - start) CONNECT_TIMEOUT) with false
      by (symmetry; apply py_lt_false; exact Hlate).
    exists (S k), (run_callbacks self (arrivals env k)).
    repeat split; [lia | exact Hoff1 | exact Hcl1].
  - destruct (py_lt (clock env (S k) - start) CONNECT_TIMEOUT).
    + destruct (IH (S k) fuel _ Hoff1) as (k' & self' & Hrun & Hk & Hc & Hcl).
      * replace (S (S k + d)) with (S (k + S d)) by lia. exact Hlate.
      * lia.
      * lia.
      * exists k', self'. split; [exact Hrun|]. split; [lia|].
        split; [exact Hc | congruence].
    + exists (S k), (run_callbacks self (arrivals env k)).
      repeat split; [lia | exact Hoff1 | exact Hcl1].
Qed.

End ConnectTimeout.

(** The claim as worded fails: an acknowledgment that is delivered after
    the wait loop has timed out, but before [connect()] tests
    [self.connected] for the last time (line 148), makes the call return
    [True].  The clock advances by 0.1 per reading, nothing arrives during the
    fifty iterations of the loop, the fifty-first reading of the flag sees
    [ConnAck 0]. *)
Lemma connect_late_ack_succeeds :
  let env := {| ctor_raises := false; tcp_connect_raises := false;
                clock := fun k => (inject_Z (Z.of_nat k) / 10)%Q;
                arrivals := fun k => if (k =? 50)%nat then [ConnAck 0] else [] |} in
  let self := MQTTClient_init "4242" "broker.hivemq.com" 1883 None None None in
  (forall k, (k < 50)%nat -> arrivals env k = []) /\
  (CONNECT_TIMEOUT <= clock env 50 - clock env 0)%Q /\
  exists self',
    connect env 60 self = Some (true, self') /\ connected self' = true.
Proof.
  intros env self. split; [|split].
  - intros k Hk. simpl. destruct (Nat.eqb_spec k 50); [lia | reflexivity].
  - vm_compute. discriminate.
  - eexists. split; vm_compute; reflexivity.
Qed.

(** C8, amended: when no successful acknowledgment is delivered before any
    reading of [self.connected] that [connect()] makes, the test after the
    wait loop included (readings [0 .. d + 1]), and the clock passes the
    5-unit timeout at reading [d + 1], [connect()] returns [False] (it does
    not raise and, given enough steps, does not wait for ever) and
    [connected] is still false. *)
Theorem connect_times_out (env : ConnectEnv) (self : MQTTClient) (d fuel : nat) :
  connected self = false ->
  (forall k, (k <= S d)%nat -> Forall (fun e => e <> ConnAck 0) (arrivals env k)) ->
  (CONNECT_TIMEOUT <= clock env (S d) - clock env 0)%Q ->
  (d < fuel)%nat ->
  exists self',
    connect env fuel self = Some (false, self') /\ connected self' = false.
Proof.
  intros Hoff Hno Hlate Hfuel. unfold connect.
  destruct (ctor_raises env); [eauto|].
  destruct (tcp_connect_raises env); [eexists; split; [reflexivity | exact Hoff]|].
  match goal with
  | |- context [wait_for_ack env ?st fuel 0 ?c] =>
      destruct (wait_for_ack_times_out env (S d) Hno st d 0%nat fuel c Hoff Hlate Hfuel
                  ltac:(lia))
        as (k' & self1 & Hrun & Hk & Hc & _)
  end.
  rewrite Hrun.
  destruct (run_callbacks_no_ack self1 (arrivals env k') Hc (Hno k' ltac:(lia)))
    as [Hc2 _].
  rewrite Hc2. eauto.
Qed.

Lemma connect_times_out_witness :
  let env := {| ctor_raises := false; tcp_connect_raises := false;
                clock := fun k => (inject_Z (Z.of_nat k) / 10)%Q;
                arrivals := fun k => if (k =? 3)%nat then [ConnAck 5]
                                     else if (k =? 51)%nat then [ConnAck 0] else [] |} in
  let self := MQTTClient_init "4242" "broker.hivemq.com" 1883 None None None in
  exists self',
    connect env 60 self = Some (false, self') /\ connected self' = false.
Proof.
  intros env self.
  apply (connect_times_out env self 49 60).
  - reflexivity.
  - intros k Hk. simpl. destruct (Nat.eqb_spec k 3); [repeat constructor; discriminate|].
    destruct (Nat.eqb_spec k 51); [lia | constructor].
  - vm_compute. discriminate.
  - lia.
Defined.

(* ===================================================================== *)
(** * Further properties of the code *)
(* ===================================================================== *)

(** ** [process_json_message], case by case *)

Lemma record_of_lookup self key ds :
  device_stats self !! key = Some ds -> record_of self key = ds.
Proof. unfold record_of. intros ->. reflexivity. Qed.

(** The three ways a call ends: given up before any update, given up after
    the per-device counter, or completed. *)
Lemma process_json_message_shape self topic payload :
  match payload with
  | JObj fields =>
    match as_key (dict_get fields "device_id" (JStr "unknown")) with
    | Some key =>
      match as_number (dict_get fields "power" (JNum 0)) with
      | Some p =>
        process_json_message self topic payload
        = {| received_messages :=
               received_messages self ++
                 [ {| rm_device_id := dict_get fields "device_id" (JStr "unknown");
                      rm_timestamp := dict_get fields "timestamp" (JStr "");
                      rm_power := dict_get fields "power" (JNum 0);
                      rm_topic := topic |} ];
             processed_count := processed_count self + 1;
             device_stats :=
               <[key := accounted (record_of self key) p]> (device_stats self);
             topic_filter := topic_filter self;
             subscribed := subscribed self |}
      | None =>
        process_json_message self topic payload
        = set_device_stats self
            (<[key := counted (record_of self key)]> (device_stats self))
      end
    | None => process_json_message self topic payload = self
    end
  | _ => process_json_message self topic payload = self
  end.
Proof.
  destruct payload as [| | | | |fields]; try reflexivity.
  unfold process_json_message. simpl payload_get. cbv iota beta.
  destruct (as_key (dict_get fields "device_id" (JStr "unknown"))) as [key|];
    [|reflexivity].
  unfold record_of, counted, accounted.
  destruct (device_stats self !! key) as [ds|] eqn:E; simpl default.
  - rewrite E. simpl default.
    destruct (as_number (dict_get fields "power" (JNum 0))) as [p|]; simpl.
    + rewrite insert_insert_eq. reflexivity.
    + reflexivity.
  - rewrite lookup_insert_eq. simpl default.
    destruct (as_number (dict_get fields "power" (JNum 0))) as [p|]; simpl.
    + rewrite !insert_insert_eq. reflexivity.
    + rewrite insert_insert_eq. reflexivity.
Qed.

(** X1: a call touches at most the record of the payload's own device:
    the record stored under any other key is the same before and after. *)
Theorem other_devices_untouched (self : ApplicationLayer) (topic : string)
    (payload : json) (k : dict_key) :
  (forall fields, payload = JObj fields ->
     as_key (dict_get fields "device_id" (JStr "unknown")) <> Some k) ->
  device_stats (process_json_message self topic payload) !! k
  = device_stats self !! k.
Proof.
  intros Hk. pose proof (process_json_message_shape self topic payload) as H.
  destruct payload as [| | | | |fields]; try (rewrite H; reflexivity).
  specialize (Hk fields eq_refl).
  destruct (as_key (dict_get fields "device_id" (JStr "unknown"))) as [key|];
    [|rewrite H; reflexivity].
  assert (key <> k) by congruence.
  destruct (as_number (dict_get fields "power" (JNum 0))) as [p|];
    rewrite H; simpl; apply lookup_insert_ne; assumption.
Qed.

Lemma other_devices_untouched_witness :
  let self := process_json_message (ApplicationLayer_init "home/appliance/+/power")
                "home/appliance/fridge_207/power"
                (make_payload "fridge_207" ("2025-12-08T10:00:00"%string, 100%Q)) in
  device_stats
    (process_json_message self "home/appliance/vacuum_254/power"
       (make_payload "vacuum_254" ("2025-12-08T10:00:01"%string, 900%Q)))
    !! KStr "fridge_207"
  = device_stats self !! KStr "fridge_207".
Proof.
  intros self.
  apply (other_devices_untouched self "home/appliance/vacuum_254/power"
           (make_payload "vacuum_254" ("2025-12-08T10:00:01"%string, 900%Q))
           (KStr "fridge_207")).
  intros fields [= <-]. simpl. discriminate.
Defined.

(** What one call does to the log and to the counter. *)
Lemma process_json_message_logged self topic payload :
  let self' := process_json_message self topic payload in
  match accepted payload with
  | Some _ =>
    processed_count self' = processed_count self + 1 /\
    exists m, received_messages self' = received_messages self ++ [m]
  | None =>
    processed_count self' = processed_count self /\
    received_messages self' = received_messages self
  end.
Proof.
  intros self'. subst self'.
  pose proof (process_json_message_shape self topic payload) as H.
  unfold accepted.
  destruct payload as [| | | | |fields]; try (rewrite H; split; reflexivity).
  destruct (as_key (dict_get fields "device_id" (JStr "unknown"))) as [key|];
    simpl; [|rewrite H; split; reflexivity].
  destruct (as_number (dict_get fields "power" (JNum 0))) as [p|];
    simpl; rewrite H; simpl; [|split; reflexivity].
  split; [reflexivity|]. eexists. reflexivity.
Qed.

(** X2: a payload is counted and logged exactly when it is a dict whose
    device id is hashable and whose power is a number that float arithmetic
    takes (a float, a bool, or an int below the float range); then one entry
    with the payload's three fields (defaults for missing ones) and the topic
    is appended, and the device's record counts the reading and takes it into
    its maximum and minimum.  Any other payload, an int such as [10**400]
    included, leaves the log and [processed_count] as they were. *)
Theorem process_json_message_accepts (self : ApplicationLayer) (topic : string)
    (payload : json) :
  let self' := process_json_message self topic payload in
  match accepted payload with
  | Some (key, p) =>
    processed_count self' = processed_count self + 1 /\
    (exists m, received_messages self' = received_messages self ++ [m] /\
               rm_topic m = topic /\
               payload_get payload "device_id" (JStr "unknown") = Some (rm_device_id m) /\
               payload_get payload "timestamp" (JStr "") = Some (rm_timestamp m) /\
               payload_get payload "power" (JNum 0) = Some (rm_power m) /\
               as_key (rm_device_id m) = Some key /\
               as_number (rm_power m) = Some p) /\
    (exists ds,
       device_stats self' !! key = Some ds /\
       ds_message_count ds = ds_message_count (record_of self key) + 1 /\
       ds_max_power ds = py_max (ds_max_power (record_of self key)) p /\
       ds_min_power ds = x_min (ds_min_power (record_of self key)) p)
  | None =>
    processed_count self' = processed_count self /\
    received_messages self' = received_messages self
  end.
Proof.
  intros self'. subst self'.
  pose proof (process_json_message_shape self topic payload) as H.
  unfold accepted.
  destruct payload as [| | | | |fields]; try (rewrite H; split; reflexivity).
  destruct (as_key (dict_get fields "device_id" (JStr "unknown"))) as [key|] eqn:Ek;
    simpl; [|rewrite H; split; reflexivity].
  destruct (as_number (dict_get fields "power" (JNum 0))) as [p|] eqn:Ep;
    simpl; rewrite H; simpl; [|split; reflexivity].
  split; [reflexivity|]. split.
  - eexists. split; [reflexivity|]. simpl. repeat split; assumption.
  - eexists. split; [apply lookup_insert_eq|]. repeat split.
Qed.

(** An int beyond the float range is dropped by the handler after the
    per-device counter has moved: [0.0 + 10**400] raises. *)
Example huge_int_is_dropped :
  let payload := JObj [ ("device_id"%string, JStr "fridge_207");
                        ("power"%string, JNum (inject_Z (10 ^ 400))) ] in
  let self' := process_json_message (ApplicationLayer_init "home/appliance/+/power")
                 "home/appliance/fridge_207/power" payload in
  accepted payload = None /\
  processed_count self' = 0 /\
  received_messages self' = [] /\
  (ds_message_count <$> device_stats self' !! KStr "fridge_207") = Some 1.
Proof. vm_compute. repeat split; reflexivity. Qed.

(** Keys of a dict that holds no item under [key] fall back on the default. *)
Lemma dict_get_absent fields key default :
  Forall (fun kv => fst kv <> key) fields -> dict_get fields key default = default.
Proof.
  induction 1 as [|[k v] rest Hk _ IH]; simpl; [reflexivity|].
  destruct (String.eqb_spec k key) as [->|_]; [contradiction Hk; reflexivity | exact IH].
Qed.

(** X3: a dict without a "device_id" item is filed under the device
    "unknown", and without a "power" item it counts as a reading of 0. *)
Theorem missing_fields_default (self : ApplicationLayer) (topic : string)
    (fields : list (string * json)) :
  Forall (fun kv => fst kv <> "device_id"%string) fields ->
  Forall (fun kv => fst kv <> "power"%string) fields ->
  let self' := process_json_message self topic (JObj fields) in
  processed_count self' = processed_count self + 1 /\
  device_stats self' !! KStr "unknown"
  = Some (accounted (record_of self (KStr "unknown")) 0) /\
  exists ts, received_messages self'
             = received_messages self ++
                 [ {| rm_device_id := JStr "unknown"; rm_timestamp := ts;
                      rm_power := JNum 0; rm_topic := topic |} ].
Proof.
  intros Hid Hpw self'. subst self'.
  pose proof (process_json_message_shape self topic (JObj fields)) as H.
  cbv beta iota in H.
  rewrite (dict_get_absent _ _ _ Hid), (dict_get_absent _ _ _ Hpw) in H.
  simpl in H. rewrite H. simpl.
  split; [reflexivity|]. split; [apply lookup_insert_eq|]. eauto.
Qed.

Lemma missing_fields_default_witness :
  let self' := process_json_message (ApplicationLayer_init "home/appliance/+/power")
                 "home/appliance/x/power"
                 (JObj [("timestamp"%string, JStr "2025-12-08T10:00:00")]) in
  processed_count self' = 0 + 1 /\
  device_stats self' !! KStr "unknown"
  = Some (accounted
            (record_of (ApplicationLayer_init "home/appliance/+/power") (KStr "unknown")) 0) /\
  exists ts, received_messages self'
             = [] ++ [ {| rm_device_id := JStr "unknown"; rm_timestamp := ts;
                          rm_power := JNum 0; rm_topic := "home/appliance/x/power" |} ].
Proof.
  apply (missing_fields_default (ApplicationLayer_init "home/appliance/+/power")
           "home/appliance/x/power"
           [("timestamp"%string, JStr "2025-12-08T10:00:00")]).
  - repeat constructor. simpl. discriminate.
  - repeat constructor. simpl. discriminate.
Defined.

(** ** The log and the per-device records over many calls *)

Lemma process_all_snoc self calls c :
  process_all self (calls ++ [c])
  = process_json_message (process_all self calls) (fst c) (snd c).
Proof. unfold process_all. apply fold_left_app. Qed.

Lemma app_reachable_process_all tf calls :
  app_reachable (process_all (ApplicationLayer_init tf) calls).
Proof.
  induction calls as [|c calls IH] using rev_ind.
  - apply app_reach_init.
  - rewrite process_all_snoc. apply app_reach_step, IH.
Qed.

(** X4: the log is append-only.  Over any sequence of calls the old log is
    a prefix of the new one, [processed_count] grows by the number of
    appended entries, and that number is the number of accepted payloads:
    the dicts with a hashable device id and a power that float arithmetic
    takes. *)
Theorem log_is_append_only (self : ApplicationLayer) (calls : list (string * json)) :
  exists appended,
    received_messages (process_all self calls) = received_messages self ++ appended /\
    processed_count (process_all self calls)
    = processed_count self + Z.of_nat (length appended) /\
    length appended
    = length (List.filter (fun c => bool_decide (is_Some (accepted (snd c)))) calls).
Proof.
  induction calls as [|[topic payload] calls IH] using rev_ind.
  - exists []. simpl. rewrite app_nil_r. repeat split. lia.
  - destruct IH as (appended & Hlog & Hcount & Hlen).
    rewrite process_all_snoc. simpl fst. simpl snd.
    pose proof (process_json_message_logged (process_all self calls) topic payload) as H.
    cbv zeta in H. rewrite List.filter_app. simpl List.filter.
    destruct (accepted payload) as [[key p]|].
    + destruct H as (Hc & (m & Hm)).
      exists (appended ++ [m]). rewrite Hm, Hlog, Hc, Hcount, !length_app, <- Hlen.
      rewrite bool_decide_true by eauto. simpl. rewrite <- app_assoc.
      repeat split. lia.
    + destruct H as (Hc & Hm).
      exists appended. rewrite Hm, Hc, length_app, <- Hlen.
      rewrite bool_decide_false by (intros [? ?]; discriminate).
      simpl. repeat split; [assumption | assumption | lia].
Qed.

(** Arithmetic of the extended minimum. *)
Lemma x_min_le_reading m p : x_le (x_min m p) (Fin p).
Proof.
  unfold x_min, x_lt. destruct m as [q|]; simpl; [|lra].
  destruct (py_lt p q) eqn:E; simpl; [lra|]. apply py_lt_false in E. exact E.
Qed.

Lemma x_min_le_old m p : x_le (x_min m p) m.
Proof.
  unfold x_min, x_lt. destruct m as [q|]; simpl; [|exact I].
  destruct (py_lt p q) eqn:E; simpl; [|lra]. apply py_lt_true in E. lra.
Qed.

Lemma x_le_trans a b c : x_le a b -> x_le b c -> x_le a c.
Proof. destruct a, b, c; simpl; intros; try tauto; lra. Qed.

Lemma app_reachable_records self :
  app_reachable self ->
  forall key,
    match device_stats self !! key with
    | Some ds => record_agrees (received_messages self) key ds
    | None => logged_for key (received_messages self) = []
    end.
Proof.
  induction 1 as [tf|self topic payload _ IH]; intros k.
  - simpl. rewrite lookup_empty. reflexivity.
  - pose proof (process_json_message_shape self topic payload) as H.
    assert (Hsame : process_json_message self topic payload = self ->
              match device_stats (process_json_message self topic payload) !! k with
              | Some ds => record_agrees
                             (received_messages (process_json_message self topic payload)) k ds
              | None => logged_for k
                          (received_messages (process_json_message self topic payload)) = []
              end)
      by (intros ->; apply IH).
    destruct payload as [| | | | |fields]; try (apply Hsame; exact H).
    destruct (as_key (dict_get fields "device_id" (JStr "unknown"))) as [key|] eqn:Ek;
      [|apply Hsame; exact H].
    clear Hsame.
    (* the record the call starts from, with what is known of it *)
    assert (Hold : 0 <= ds_message_count (record_of self key) /\
                   Z.of_nat (length (logged_for key (received_messages self)))
                   <= ds_message_count (record_of self key) /\
                   (0 <= ds_max_power (record_of self key))%Q /\
                   Forall (fun m =>
                             x_le (ds_min_power (record_of self key)) (Fin (logged_power m)) /\
                             (logged_power m <= ds_max_power (record_of self key))%Q)
                          (logged_for key (received_messages self))).
    { specialize (IH key). unfold record_of.
      destruct (device_stats self !! key) as [ds|]; simpl default.
      - destruct IH as (H1 & H2 & H3 & H5). repeat split; try assumption. lia.
      - rewrite IH. simpl. repeat split; try lia; try lra. constructor. }
    destruct Hold as (Hc0 & Hlen & Hmax & Hall).
    destruct (as_number (dict_get fields "power" (JNum 0))) as [p|] eqn:Ep;
      rewrite H; simpl device_stats; simpl received_messages.
    + (* completed *)
      destruct (decide (key = k)) as [<-|Hne].
      * rewrite lookup_insert_eq. unfold record_agrees, logged_for.
        rewrite List.filter_app. simpl List.filter. unfold filed_under at 2 4.
        simpl rm_device_id. rewrite bool_decide_true by exact Ek.
        fold (logged_for key (received_messages self)).
        set (m := {| rm_device_id := _; rm_timestamp := _; rm_power := _; rm_topic := _ |}).
        assert (Hp : logged_power m = p) by (unfold logged_power; simpl; rewrite Ep; reflexivity).
        simpl ds_message_count. simpl ds_max_power.
        simpl ds_min_power. rewrite length_app. simpl length.
        split; [lia|]. split; [lia|].
        split; [split_minmax; lra|].
        apply Forall_app. split.
        -- eapply Forall_impl; [exact Hall|]. intros x [Hx1 Hx2]. split.
           ++ eapply x_le_trans; [apply x_min_le_old | exact Hx1].
           ++ split_minmax; lra.
        -- constructor; [|constructor]. rewrite Hp. split.
           ++ apply x_min_le_reading.
           ++ split_minmax; lra.
      * rewrite lookup_insert_ne by exact Hne.
        assert (Hlog : logged_for k (received_messages self ++
                         [ {| rm_device_id := dict_get fields "device_id" (JStr "unknown");
                              rm_timestamp := dict_get fields "timestamp" (JStr "");
                              rm_power := dict_get fields "power" (JNum 0);
                              rm_topic := topic |} ])
                       = logged_for k (received_messages self)).
        { unfold logged_for. rewrite List.filter_app. simpl List.filter.
          unfold filed_under at 2. simpl rm_device_id.
          rewrite bool_decide_false by congruence. apply app_nil_r. }
        unfold record_agrees. rewrite Hlog. exact (IH k).
    + (* given up after the counter *)
      destruct (decide (key = k)) as [<-|Hne].
      * rewrite lookup_insert_eq. unfold record_agrees. simpl.
        repeat split; try assumption; lia.
      * rewrite lookup_insert_ne by exact Hne. apply IH.
Qed.

(** X5: every per-device record of a reachable consumer has
    [message_count >= 1] and [max_power >= 0], so the averages computed
    from a record never divide by zero. *)
Theorem records_are_counted (self : ApplicationLayer) (key : dict_key) (ds : DeviceStats) :
  app_reachable self ->
  device_stats self !! key = Some ds ->
  1 <= ds_message_count ds /\ (0 <= ds_max_power ds)%Q.
Proof.
  intros Hr Hk. pose proof (app_reachable_records self Hr key) as H.
  rewrite Hk in H. destruct H as (H1 & _ & H3 & _). auto.
Qed.

(** X6: the records agree with the log.  In a reachable consumer, for every
    key: the record's [message_count] is at least the number of entries
    logged under the key (attempts given up after the counter are included),
    every logged power lies between its [min_power] and [max_power]; and a
    key without a record has no log entry. *)
Theorem records_agree_with_log (self : ApplicationLayer) (key : dict_key) :
  app_reachable self ->
  let logged := logged_for key (received_messages self) in
  match device_stats self !! key with
  | Some ds =>
    Z.of_nat (length logged) <= ds_message_count ds /\
    Forall (fun m => x_le (ds_min_power ds) (Fin (logged_power m)) /\
                     (logged_power m <= ds_max_power ds)%Q) logged
  | None => logged = []
  end.
Proof.
  intros Hr logged. subst logged.
  pose proof (app_reachable_records self Hr key) as H.
  destruct (device_stats self !! key) as [ds|]; [|exact H].
  destruct H as (_ & H2 & _ & H5). auto.
Qed.

Lemma records_are_counted_witness :
  let self := process_all (ApplicationLayer_init "home/appliance/+/power")
                [("home/appliance/fridge_207/power"%string,
                  JObj [("device_id"%string, JStr "fridge_207");
                        ("power"%string, JStr "high")])] in
  1 <= 1 /\ (0 <= 0)%Q.
Proof.
  intros self.
  apply (records_are_counted self (KStr "fridge_207")
           {| ds_message_count := 1; ds_total_power := 0;
              ds_max_power := 0; ds_min_power := PInf |}).
  - apply app_reachable_process_all.
  - vm_compute. reflexivity.
Defined.

Lemma records_agree_with_log_witness :
  let self := process_all (ApplicationLayer_init "home/appliance/+/power")
                [("home/appliance/fridge_207/power"%string,
                  make_payload "fridge_207" ("2025-12-08T10:00:00"%string, 100%Q));
                 ("home/appliance/fridge_207/power"%string,
                  JObj [("device_id"%string, JStr "fridge_207");
                        ("power"%string, JStr "high")]);
                 ("home/appliance/fridge_207/power"%string,
                  make_payload "fridge_207" ("2025-12-08T10:00:01"%string, 50%Q))] in
  let logged := logged_for (KStr "fridge_207") (received_messages self) in
  match device_stats self !! KStr "fridge_207" with
  | Some ds =>
    Z.of_nat (length logged) <= ds_message_count ds /\
    Forall (fun m => x_le (ds_min_power ds) (Fin (logged_power m)) /\
                     (logged_power m <= ds_max_power ds)%Q) logged
  | None => logged = []
  end.
Proof.
  intros self.
  apply (records_agree_with_log self (KStr "fridge_207")).
  apply app_reachable_process_all.
Defined.

(** ** Deliveries from the broker *)

Lemma deliver_all_snoc json_loads self msgs m :
  deliver_all json_loads self (msgs ++ [m])
  = _on_mqtt_message json_loads (deliver_all json_loads self msgs) m.
Proof. unfold deliver_all. apply fold_left_app. Qed.

(** X7: over any sequence of deliveries, [processed_count] grows by exactly
    the number of messages whose text decodes to an accepted payload; a
    message that does not decode, or decodes to something else, is dropped
    without a trace in the log.  If the counter matched the log before, it
    matches it after. *)
Theorem deliveries_counted (json_loads : string -> option json)
    (self : ApplicationLayer) (msgs : list MqttMessage) :
  let good m := bool_decide (is_Some (json_loads (msg_payload m) ≫= accepted)) in
  let self' := deliver_all json_loads self msgs in
  processed_count self'
  = processed_count self + Z.of_nat (length (List.filter good msgs)) /\
  length (received_messages self')
  = (length (received_messages self) + length (List.filter good msgs))%nat.
Proof.
  intros good self'. subst self'.
  induction msgs as [|m msgs IH] using rev_ind.
  - simpl. split; lia.
  - destruct IH as [IHc IHl].
    rewrite deliver_all_snoc, List.filter_app, length_app. simpl List.filter.
    unfold _on_mqtt_message, good at 2 4.
    destruct (json_loads (msg_payload m)) as [payload|]; simpl mbind.
    + pose proof (process_json_message_logged
                    (deliver_all json_loads self msgs) (msg_topic m) payload) as H.
      cbv zeta in H.
      destruct (accepted payload) as [[key p]|].
      * destruct H as (Hc & (x & Hx)).
        rewrite bool_decide_true by eauto.
        rewrite Hc, Hx, IHc, length_app, IHl. simpl. split; lia.
      * destruct H as (Hc & Hx).
        rewrite bool_decide_false by (intros [? ?]; discriminate).
        rewrite Hc, Hx, IHc, IHl. simpl. split; lia.
    + rewrite bool_decide_false by (intros [? ?]; discriminate).
      rewrite IHc, IHl. simpl. split; lia.
Qed.

(** ** More on [LiveStats] *)

(** X9: from any state, feeding readings never lowers [max_power] nor
    raises [min_power], and every reading fed lies between the two
    afterwards. *)
Theorem extremes_enclose_readings (s : LiveStats) (ps : list Q) :
  (max_power s <= max_power (feed s ps))%Q /\
  x_le (min_power (feed s ps)) (min_power s) /\
  Forall (fun p => x_le (min_power (feed s ps)) (Fin p) /\
                   (p <= max_power (feed s ps))%Q) ps.
Proof.
  induction ps as [|p ps (IHmax & IHmin & IHall)] using rev_ind.
  - simpl. repeat split; [lra | destruct (min_power s); simpl; [lra | exact I] | constructor].
  - rewrite feed_snoc. simpl max_power. simpl min_power.
    split; [split_minmax; lra|].
    split; [eapply x_le_trans; [apply x_min_le_old | exact IHmin]|].
    apply Forall_app. split.
    + eapply Forall_impl; [exact IHall|]. intros q [Hq1 Hq2]. split.
      * eapply x_le_trans; [apply x_min_le_old | exact Hq1].
      * split_minmax; lra.
    + constructor; [|constructor]. split.
      * apply x_min_le_reading.
      * split_minmax; lra.
Qed.

(** ** Order of arrival *)

Lemma x_eq_refl a : x_eq a a.
Proof. destruct a; simpl; [reflexivity | exact I]. Qed.

Lemma x_eq_trans a b c : x_eq a b -> x_eq b c -> x_eq a c.
Proof. destruct a, b, c; simpl; intros; try tauto. lra. Qed.

Lemma x_min_proper a b p q : x_eq a b -> (p == q)%Q -> x_eq (x_min a p) (x_min b q).
Proof.
  unfold x_min, x_lt. destruct a as [x|], b as [y|]; simpl; try tauto; intros Hab Hpq.
  destruct (py_lt p x) eqn:E1, (py_lt q y) eqn:E2; simpl;
    try apply py_lt_true in E1; try apply py_lt_false in E1;
    try apply py_lt_true in E2; try apply py_lt_false in E2; lra.
Qed.

Lemma x_min_swap a p q : x_eq (x_min (x_min a p) q) (x_min (x_min a q) p).
Proof.
  unfold x_min, x_lt. destruct a as [x|]; simpl.
  - destruct (py_lt p x) eqn:E1, (py_lt q x) eqn:E2; simpl;
      try rewrite E1; try rewrite E2; simpl;
      try apply py_lt_true in E1; try apply py_lt_false in E1;
      try apply py_lt_true in E2; try apply py_lt_false in E2;
      repeat match goal with
             | |- context [py_lt ?u ?v] =>
                 let E := fresh "E" in
                 destruct (py_lt u v) eqn:E; simpl;
                 [apply py_lt_true in E | apply py_lt_false in E]
             end; lra.
  - destruct (py_lt q p) eqn:E1, (py_lt p q) eqn:E2; simpl;
      try apply py_lt_true in E1; try apply py_lt_false in E1;
      try apply py_lt_true in E2; try apply py_lt_false in E2; lra.
Qed.

Lemma same_statistics_refl s : same_statistics s s.
Proof. repeat split; try reflexivity. apply x_eq_refl. Qed.

Lemma same_statistics_trans s t u :
  same_statistics s t -> same_statistics t u -> same_statistics s u.
Proof.
  intros (H1 & H3 & H4) (K1 & K3 & K4).
  repeat split; [congruence | lra | eapply x_eq_trans; eassumption].
Qed.

Lemma add_data_same s t p :
  same_statistics s t -> same_statistics (add_data s p) (add_data t p).
Proof.
  intros (H1 & H3 & H4). unfold same_statistics. simpl.
  split; [lia|]. split; [split_minmax; lra|].
  apply x_min_proper; [exact H4 | reflexivity].
Qed.

Lemma feed_same ps : forall s t,
  same_statistics s t -> same_statistics (feed s ps) (feed t ps).
Proof.
  induction ps as [|p ps IH]; intros s t H; simpl; [exact H|].
  apply IH, add_data_same, H.
Qed.

Lemma add_data_swap s p q :
  same_statistics (add_data (add_data s p) q) (add_data (add_data s q) p).
Proof.
  unfold same_statistics. simpl.
  split; [lia|]. split; [split_minmax; lra|].
  apply x_min_swap.
Qed.

(** X10: count, maximum and minimum do not depend on the order in which
    the readings arrive.  (The running sum does: see [sum_depends_on_order]
    below.) *)
Theorem statistics_order_independent (s : LiveStats) (ps qs : list Q) :
  Permutation ps qs -> same_statistics (feed s ps) (feed s qs).
Proof.
  intros Hperm. revert s.
  induction Hperm as [|p ps qs _ IH|p q ps|ps qs rs _ IH1 _ IH2]; intros s.
  - apply same_statistics_refl.
  - simpl. apply IH.
  - simpl. apply feed_same, add_data_swap.
  - eapply same_statistics_trans; [apply IH1 | apply IH2].
Qed.

Lemma statistics_order_independent_witness :
  same_statistics
    (feed (LiveStats_init "fridge_207" "Fridge") [100%Q; (-50)%Q; 150%Q])
    (feed (LiveStats_init "fridge_207" "Fridge") [150%Q; 100%Q; (-50)%Q]).
Proof.
  apply (statistics_order_independent (LiveStats_init "fridge_207" "Fridge")
           [100%Q; (-50)%Q; 150%Q] [150%Q; 100%Q; (-50)%Q]).
  symmetry. apply (Permutation_cons_append [100%Q; (-50)%Q] 150%Q).
Defined.

(** ** What the dashboard shows *)

Lemma recent_powers_feed id name ps :
  recent_powers (feed (LiveStats_init id name) ps) = drop (length ps - RECENT_MAXLEN) ps.
Proof.
  induction ps as [|p ps IH] using rev_ind; [reflexivity|].
  rewrite feed_snoc. simpl recent_powers. rewrite IH.
  apply (deque_append_window ps p).
Qed.

(** X11: the "Recent Power Values" line of the dashboard shows the last
    [min(n, 10)] readings in arrival order. *)
Theorem dashboard_shows_last_ten (id name : string) (ps : list Q) :
  let s := feed (LiveStats_init id name) ps in
  dashboard_recent s = drop (length ps - 10) ps /\
  length (dashboard_recent s) = Nat.min (length ps) 10.
Proof.
  intros s. subst s. unfold dashboard_recent, last_items.
  rewrite recent_powers_feed, length_drop, drop_drop. unfold RECENT_MAXLEN.
  split.
  - f_equal. lia.
  - rewrite length_drop. lia.
Qed.

Lemma feed_nonpositive id name ps :
  Forall (fun p => (p <= 0)%Q) ps ->
  (max_power (feed (LiveStats_init id name) ps) == 0)%Q.
Proof.
  induction ps as [|p ps IH] using rev_ind; intros Hall; [reflexivity|].
  apply Forall_app in Hall as [Hps Hp]. inversion Hp as [|? ? Hp0 _]; subst.
  rewrite feed_snoc. simpl max_power. specialize (IH Hps).
  revert IH. generalize (max_power (feed (LiveStats_init id name) ps)). intros m Hm.
  split_minmax; lra.
Qed.

(** X12: as long as no positive reading has arrived (none at all, or only
    zero and negative ones), the power bar is [width] light cells. *)
Theorem power_bar_without_positive_reading (id name : string) (ps : list Q) (width : Z) :
  Forall (fun p => (p <= 0)%Q) ps ->
  get_power_bar (feed (LiveStats_init id name) ps) width = str_mul LIGHT_SHADE width.
Proof.
  intros Hall. unfold get_power_bar.
  replace (Qeq_bool (max_power (feed (LiveStats_init id name) ps)) 0) with true
    by (symmetry; apply Qeq_bool_iff, feed_nonpositive, Hall).
  reflexivity.
Qed.

Lemma power_bar_without_positive_reading_witness :
  get_power_bar (feed (LiveStats_init "fridge_207" "Fridge") [(-5)%Q; 0%Q]) 30
  = str_mul LIGHT_SHADE 30.
Proof.
  apply (power_bar_without_positive_reading "fridge_207" "Fridge" [(-5)%Q; 0%Q] 30).
  repeat constructor; vm_compute; discriminate.
Defined.

(** ** More on the client *)

Lemma run_callbacks_client self es : client (run_callbacks self es) = client self.
Proof.
  unfold run_callbacks. revert self.
  induction es as [|e es IH]; intros self; simpl; [reflexivity|].
  rewrite IH. destruct e as [rc|rc]; simpl; [|reflexivity].
  unfold _on_connect. destruct (rc =? 0); reflexivity.
Qed.

Lemma run_callbacks_ack self es :
  connected (run_callbacks self (es ++ [ConnAck 0])) = true.
Proof. unfold run_callbacks. rewrite fold_left_app. reflexivity. Qed.

Lemma wait_for_ack_client env start : forall fuel k self k' self',
  wait_for_ack env start fuel k self = Some (k', self') ->
  client self' = client self.
Proof.
  induction fuel as [|fuel IH]; intros k self k' self' H; simpl in H; [discriminate|].
  destruct (connected (run_callbacks self (arrivals env k))).
  - injection H as <- <-. apply run_callbacks_client.
  - destruct (py_lt (clock env (S k) - start) CONNECT_TIMEOUT).
    + apply IH in H. rewrite H. apply run_callbacks_client.
    + injection H as <- <-. apply run_callbacks_client.
Qed.

(** X14: starting from a disconnected client, the value [connect()]
    returns is the [connected] flag it leaves; and when it returns [True]
    the paho client exists with its network loop running. *)
Theorem connect_result_is_flag (env : ConnectEnv) (fuel : nat)
    (self self' : MQTTClient) (ok : bool) :
  connected self = false ->
  connect env fuel self = Some (ok, self') ->
  connected self' = ok /\
  (ok = true -> exists pc, client self' = Some pc /\ paho_loop_running pc = true).
Proof.
  intros Hoff. unfold connect.
  destruct (ctor_raises env); [intros [= <- <-]; split; [exact Hoff | discriminate]|].
  destruct (tcp_connect_raises env);
    [intros [= <- <-]; split; [exact Hoff | discriminate]|].
  match goal with
  | |- context [wait_for_ack env ?st fuel 0 ?c] =>
      destruct (wait_for_ack env st fuel 0 c) as [[k self1]|] eqn:Hw; [|discriminate]
  end.
  intros [= <- <-]. split; [reflexivity|]. intros _.
  rewrite run_callbacks_client. apply wait_for_ack_client in Hw. rewrite Hw.
  simpl. eauto.
Qed.

(** The wait loop when the acknowledgment arrives in time. *)
Lemma wait_for_ack_succeeds env start d : forall k fuel self es,
  connected self = false ->
  (forall j, (k <= j < k + d)%nat ->
     Forall (fun e => e <> ConnAck 0) (arrivals env j) /\
     (clock env (S j) - start < CONNECT_TIMEOUT)%Q) ->
  arrivals env (k + d) = es ++ [ConnAck 0] ->
  (d < fuel)%nat ->
  exists self',
    wait_for_ack env start fuel k self = Some (S (k + d), self') /\
    connected self' = true.
Proof.
  induction d as [|d IH]; intros k fuel self es Hoff Hquiet Hack Hfuel;
    (destruct fuel as [|fuel]; [lia|]); simpl.
  - replace (k + 0)%nat with k in * by lia.
    rewrite Hack, run_callbacks_ack.
    eexists. split; [reflexivity | apply run_callbacks_ack].
  - destruct (Hquiet k ltac:(lia)) as [Hno Hearly].
    destruct (run_callbacks_no_ack self (arrivals env k) Hoff Hno) as [Hoff1 _].
    rewrite Hoff1.
    replace (py_lt (clock env (S k) - start) CONNECT_TIMEOUT) with true
      by (symmetry; apply py_lt_true; exact Hearly).
    destruct (IH (S k) fuel (run_callbacks self (arrivals env k)) es Hoff1)
      as (self' & Hrun & Hon).
    + intros j Hj. apply Hquiet. lia.
    + replace (S k + d)%nat with (k + S d)%nat by lia. exact Hack.
    + lia.
    + exists self'. replace (S (k + S d)) with (S (S k + d)) by lia. auto.
Qed.

(** X15: when neither paho call raises, no successful acknowledgment
    arrives during the first [d] polls, each of which finds the clock within
    the timeout, and the [d]-th poll finds one, [connect()] returns [True]
    with [connected] set (provided nothing else arrives before the final
    test of the flag). *)
Theorem connect_succeeds (env : ConnectEnv) (self : MQTTClient) (d fuel : nat)
    (es : list net_event) :
  connected self = false ->
  ctor_raises env = false ->
  tcp_connect_raises env = false ->
  (forall j, (j < d)%nat ->
     Forall (fun e => e <> ConnAck 0) (arrivals env j) /\
     (clock env (S j) - clock env 0 < CONNECT_TIMEOUT)%Q) ->
  arrivals env d = es ++ [ConnAck 0] ->
  arrivals env (S d) = [] ->
  (d < fuel)%nat ->
  exists self',
    connect env fuel self = Some (true, self') /\ connected self' = true.
Proof.
  intros Hoff Hctor Htcp Hquiet Hack Hlast Hfuel.
  unfold connect. rewrite Hctor, Htcp.
  match goal with
  | |- context [wait_for_ack env ?st fuel 0 ?c] =>
      destruct (wait_for_ack_succeeds env st d 0%nat fuel c es Hoff) as (self1 & Hrun & Hon);
        [intros j Hj; apply Hquiet; lia | exact Hack | exact Hfuel |]
  end.
  rewrite Hrun. simpl. rewrite Hlast. simpl.
  rewrite Hon. eauto.
Qed.

Lemma connect_succeeds_witness :
  exists self',
    connect env_ack_at_third_poll 10
      (MQTTClient_init "4242" "broker.hivemq.com" 1883 None None None)
    = Some (true, self') /\ connected self' = true.
Proof.
  apply (connect_succeeds env_ack_at_third_poll
           (MQTTClient_init "4242" "broker.hivemq.com" 1883 None None None) 2 10 []).
  - reflexivity.
  - reflexivity.
  - reflexivity.
  - intros j Hj. destruct j as [|[|j]]; [| |lia]; split; try constructor;
      vm_compute; reflexivity.
  - reflexivity.
  - reflexivity.
  - lia.
Defined.

Lemma connect_result_is_flag_witness :
  exists self',
    connect env_ack_at_third_poll 10
      (MQTTClient_init "4242" "broker.hivemq.com" 1883 None None None)
    = Some (true, self') /\
    connected self' = true /\
    (true = true -> exists pc, client self' = Some pc /\ paho_loop_running pc = true).
Proof.
  eexists. split; [vm_compute; reflexivity|].
  apply (connect_result_is_flag env_ack_at_third_poll 10
           (MQTTClient_init "4242" "broker.hivemq.com" 1883 None None None)).
  - reflexivity.
  - vm_compute. reflexivity.
Defined.

(** X16: [disconnect()] is idempotent, does nothing on a client that never
    created its paho client, keeps the record of what was published, and
    after it every [publish] fails without handing anything to the broker. *)
Theorem disconnect_is_final (json_dumps : json -> string) (self : MQTTClient)
    (topic : string) (payload : json) (qos : Z) (retain : bool)
    (broker_rc : outcome Z) :
  disconnect (disconnect self) = disconnect self /\
  (client self = None -> disconnect self = self) /\
  (client self <> None -> connected (disconnect self) = false) /\
  published (disconnect self) = published self /\
  publish json_dumps (disconnect self) topic payload qos retain broker_rc
  = (false, disconnect self).
Proof.
  unfold disconnect, published, publish.
  destruct self as [host port user pw cid [pc|] conn]; simpl.
  - repeat split; congruence.
  - repeat split; try congruence. destruct conn; reflexivity.
Qed.

Lemma disconnect_is_final_witness :
  let self := MQTTClient_init "4242" "broker.hivemq.com" 1883 None None None in
  disconnect self = self.
Proof.
  intros self.
  apply (disconnect_is_final (fun _ => "{}"%string) self "t" JNull 0 false Raises).
  reflexivity.
Defined.

(** X17: [publish] never changes the [connected] flag; it returns [True]
    only on a connected client whose broker call returned
    [MQTT_ERR_SUCCESS]; and it hands at most one message to the broker, which
    then carries the topic, [json.dumps(payload)], the qos and the retain
    flag. *)
Theorem publish_effect (json_dumps : json -> string) (self : MQTTClient)
    (topic : string) (payload : json) (qos : Z) (retain : bool)
    (broker_rc : outcome Z) :
  let msg := {| msg_topic := topic; msg_payload := json_dumps payload;
                msg_qos := qos; msg_retain := retain |} in
  let '(ok, self') := publish json_dumps self topic payload qos retain broker_rc in
  connected self' = connected self /\
  (ok = true ->
   connected self = true /\ broker_rc = Returns MQTT_ERR_SUCCESS /\
   published self' = published self ++ [msg]) /\
  (published self' = published self \/ published self' = published self ++ [msg]) /\
  (connected self = true -> client self <> None ->
   forall rc, broker_rc = Returns rc ->
     ok = (rc =? MQTT_ERR_SUCCESS) /\ published self' = published self ++ [msg]).
Proof.
  unfold publish, published.
  destruct self as [host port user pw cid [pc|] conn]; destruct conn; simpl;
    destruct broker_rc as [rc|]; simpl;
    repeat split; intros;
    repeat match goal with
           | H : (_ =? _) = true |- _ => apply Z.eqb_eq in H; subst
           | H : Returns _ = Returns _ |- _ => injection H as <-
           end;
    try discriminate; try congruence; auto.
Qed.

(** X18: [subscribe_to_mqtt] never touches the log, the counter or the
    per-device records.  A failed call leaves the consumer as it was and the
    client too, except that a call whose [subscribe] raises has already
    installed the message handler on the paho client.  A successful call
    needs a connected client, installs the handler and registers the
    consumer's topic filter with qos 0 once. *)
Theorem subscribe_effect (self : ApplicationLayer) (mqtt_client : option MQTTClient)
    (sub : outcome unit) :
  let '(ok, self', mqtt_client') := subscribe_to_mqtt self mqtt_client sub in
  received_messages self' = received_messages self /\
  processed_count self' = processed_count self /\
  device_stats self' = device_stats self /\
  topic_filter self' = topic_filter self /\
  (ok = false ->
   self' = self /\
   (mqtt_client' = mqtt_client \/
    exists c pc,
      sub = Raises /\ mqtt_client = Some c /\ connected c = true /\
      client c = Some pc /\
      mqtt_client' = Some (set_client c (Some (install_on_message pc))))) /\
  (ok = true ->
   subscribed self' = true /\ client_live mqtt_client = true /\
   client_live mqtt_client' = true /\
   exists c c' pc pc',
     mqtt_client = Some c /\ mqtt_client' = Some c' /\
     client c = Some pc /\ client c' = Some pc' /\
     paho_subscriptions pc' = paho_subscriptions pc ++ [(topic_filter self, 0)] /\
     paho_on_message pc' = true /\
     paho_published pc' = paho_published pc).
Proof.
  unfold subscribe_to_mqtt.
  destruct mqtt_client as [[host port user pw cid [pc|] conn]|];
    try destruct conn; destruct sub as [[]|]; simpl;
    repeat split; intros; try discriminate; try reflexivity; auto.
  - do 4 eexists. repeat split.
  - right. do 2 eexists. repeat split.
Qed.

(* ===================================================================== *)
(** * Properties over binary64 readings *)
(* ===================================================================== *)

Section Binary64Facts.

Import Float64.

(** ** Comparisons of floats *)

Ltac sf_cases :=
  repeat match goal with
  | |- context [Z.compare ?a ?b] =>
      let H := fresh in destruct (Z.compare_spec a b) as [H|H|H]
  | H : context [Z.compare ?a ?b] |- _ =>
      let H' := fresh in destruct (Z.compare_spec a b) as [H'|H'|H']
  | |- context [Pos.compare_cont Eq ?a ?b] =>
      let H := fresh in change (Pos.compare_cont Eq a b) with (Pos.compare a b);
      destruct (Pos.compare_spec a b) as [H|H|H]
  | H : context [Pos.compare_cont Eq ?a ?b] |- _ =>
      let H' := fresh in
      change (Pos.compare_cont Eq a b) with (Pos.compare a b) in H;
      destruct (Pos.compare_spec a b) as [H'|H'|H']
  end.

Ltac sf_destruct x :=
  let s := fresh "s" in
  destruct x as [s|s| |s ? ?]; try destruct s.

Lemma SFleb_refl x : SFeqb x x = true -> SFleb x x = true.
Proof.
  unfold SFeqb, SFleb. destruct (SFcompare x x) as [[| |]|]; congruence.
Qed.

Lemma SFltb_false_leb x y :
  SFeqb x x = true -> SFeqb y y = true -> SFltb x y = false -> SFleb y x = true.
Proof.
  unfold SFeqb, SFltb, SFleb.
  sf_destruct x; sf_destruct y; simpl; try congruence;
    intros _ _; sf_cases; simpl; try congruence; try lia.
Qed.

Lemma SFltb_leb x y : SFltb x y = true -> SFleb x y = true.
Proof.
  unfold SFltb, SFleb. destruct (SFcompare x y) as [[| |]|]; congruence.
Qed.

Lemma SFleb_trans x y z :
  SFleb x y = true -> SFleb y z = true -> SFleb x z = true.
Proof.
  unfold SFleb.
  sf_destruct x; sf_destruct y; sf_destruct z; simpl; try congruence;
    sf_cases; simpl; try congruence; try lia.
Qed.

Lemma SFleb_infinity y : SFleb (S754_infinity false) y = true -> y = S754_infinity false.
Proof. unfold SFleb. sf_destruct y; simpl; congruence. Qed.

Lemma float_le_refl x : is_number x -> float_le x x.
Proof.
  unfold is_number, float_le, float_eq. rewrite FloatAxioms.eqb_spec, FloatAxioms.leb_spec. apply SFleb_refl.
Qed.

Lemma float_lt_false_le a b :
  is_number a -> is_number b -> float_lt a b = false -> float_le b a.
Proof.
  unfold is_number, float_le, float_lt, float_eq.
  rewrite !FloatAxioms.eqb_spec, FloatAxioms.ltb_spec, FloatAxioms.leb_spec. apply SFltb_false_leb.
Qed.

Lemma float_lt_le a b : float_lt a b = true -> float_le a b.
Proof. unfold float_le, float_lt. rewrite FloatAxioms.ltb_spec, FloatAxioms.leb_spec. apply SFltb_leb. Qed.

Lemma float_le_trans a b c : float_le a b -> float_le b c -> float_le a c.
Proof. unfold float_le. rewrite !FloatAxioms.leb_spec. apply SFleb_trans. Qed.

Lemma float_le_infinity p : float_le infinity p -> p = infinity.
Proof.
  unfold float_le. rewrite FloatAxioms.leb_spec. intros H.
  apply Prim2SF_inj. apply SFleb_infinity in H. exact H.
Qed.

(** ** [max] and [min] *)

Lemma py_max_cases a b : py_max a b = a \/ py_max a b = b.
Proof. unfold py_max. destruct (float_gt b a); auto. Qed.

Lemma py_min_cases a b : py_min a b = a \/ py_min a b = b.
Proof. unfold py_min. destruct (float_lt b a); auto. Qed.

Lemma py_max_number a b : is_number a -> is_number b -> is_number (py_max a b).
Proof. intros. destruct (py_max_cases a b) as [-> | ->]; assumption. Qed.

Lemma py_min_number a b : is_number a -> is_number b -> is_number (py_min a b).
Proof. intros. destruct (py_min_cases a b) as [-> | ->]; assumption. Qed.

Lemma py_max_upper a b :
  is_number a -> is_number b -> float_le a (py_max a b) /\ float_le b (py_max a b).
Proof.
  intros Ha Hb. unfold py_max, float_gt.
  destruct (PrimFloat.ltb a b) eqn:E.
  - split; [apply float_lt_le; exact E | apply float_le_refl; exact Hb].
  - split; [apply float_le_refl; exact Ha | apply float_lt_false_le; assumption].
Qed.

Lemma py_min_lower a b :
  is_number a -> is_number b -> float_le (py_min a b) a /\ float_le (py_min a b) b.
Proof.
  intros Ha Hb. unfold py_min, float_lt.
  destruct (PrimFloat.ltb b a) eqn:E.
  - split; [apply float_lt_le; exact E | apply float_le_refl; exact Hb].
  - split; [apply float_le_refl; exact Ha | apply float_lt_false_le; assumption].
Qed.

(** ** [LiveStats]: what a sequence of [add_data] calls leaves *)

Lemma feed_message_count64 ps : forall s,
  message_count (feed s ps) = message_count s + Z.of_nat (length ps).
Proof.
  unfold feed. induction ps as [|p ps IH]; intros s; simpl.
  - lia.
  - rewrite IH. simpl. lia.
Qed.

Lemma feed_total_power64 ps : forall s,
  total_power (feed s ps) = fold_left PrimFloat.add ps (total_power s).
Proof.
  unfold feed. induction ps as [|p ps IH]; intros s; simpl; [reflexivity|].
  rewrite IH. reflexivity.
Qed.

Lemma feed_max_power64 ps : forall s,
  is_number (max_power s) -> Forall is_number ps ->
  is_number (max_power (feed s ps)) /\
  (max_power (feed s ps) = max_power s \/ In (max_power (feed s ps)) ps) /\
  float_le (max_power s) (max_power (feed s ps)) /\
  Forall (fun p => float_le p (max_power (feed s ps))) ps.
Proof.
  unfold feed. induction ps as [|p ps IH]; intros s Hs Hps; simpl.
  - repeat split; auto. apply float_le_refl; exact Hs.
  - inversion Hps as [|? ? Hp Hps']; subst.
    destruct (py_max_upper (max_power s) p Hs Hp) as [Hle1 Hle2].
    destruct (IH (add_data s p) (py_max_number _ _ Hs Hp) Hps')
      as (Hn & Hin & Hle & Hall).
    simpl in Hin, Hle.
    split; [exact Hn|]. split; [|split].
    + destruct Hin as [Heq | Hin]; [|auto].
      rewrite Heq. destruct (py_max_cases (max_power s) p) as [-> | ->]; auto.
    + eapply float_le_trans; eassumption.
    + constructor; [eapply float_le_trans; eassumption | exact Hall].
Qed.

Lemma feed_min_power64 ps : forall s,
  is_number (min_power s) -> Forall is_number ps ->
  is_number (min_power (feed s ps)) /\
  (min_power (feed s ps) = min_power s \/ In (min_power (feed s ps)) ps) /\
  float_le (min_power (feed s ps)) (min_power s) /\
  Forall (fun p => float_le (min_power (feed s ps)) p) ps.
Proof.
  unfold feed. induction ps as [|p ps IH]; intros s Hs Hps; simpl.
  - repeat split; auto. apply float_le_refl; exact Hs.
  - inversion Hps as [|? ? Hp Hps']; subst.
    destruct (py_min_lower (min_power s) p Hs Hp) as [Hle1 Hle2].
    destruct (IH (add_data s p) (py_min_number _ _ Hs Hp) Hps')
      as (Hn & Hin & Hle & Hall).
    simpl in Hin, Hle.
    split; [exact Hn|]. split; [|split].
    + destruct Hin as [Heq | Hin]; [|auto].
      rewrite Heq. destruct (py_min_cases (min_power s) p) as [-> | ->]; auto.
    + eapply float_le_trans; eassumption.
    + constructor; [eapply float_le_trans; eassumption | exact Hall].
Qed.

(** The claim as worded fails on a negative first reading: [max_power]
    starts at [0.0] and [max(0.0, -5.0)] keeps it, so after [add_data(-5.0)]
    it is [0.0] and not the greatest reading. *)
Lemma add_data_max_of_negative_reading :
  let s := add_data (LiveStats_init "fridge_207" "Fridge") (-5)%float in
  message_count s = 1 /\
  max_power s = 0%float /\
  float_eq (max_power s) (-5)%float = false.
Proof. vm_compute. repeat split; reflexivity. Qed.

(** The average is the rounded quotient of the rounded sum, which need not
    be the real [sum(pi)/n]: after the readings [2**53] and [1.0] the sum is
    [2**53] again, and the average [2**52] where the real one is
    [2**52 + 0.5]; after three readings [0.1] the average exceeds every
    reading. *)
Example average_is_rounded :
  let s := feed (LiveStats_init "fridge_207" "Fridge") [0x1p53; 1]%float in
  let t := feed (LiveStats_init "fridge_207" "Fridge")
             [0x1.999999999999ap-4; 0x1.999999999999ap-4; 0x1.999999999999ap-4]%float in
  total_power s = 0x1p53%float /\
  get_avg_power s = Some (Float 0x1p52%float) /\
  max_power t = 0x1.999999999999ap-4%float /\
  get_avg_power t = Some (Float 0x1.999999999999bp-4%float).
Proof. vm_compute. repeat split; reflexivity. Qed.

(** The running sum depends on the order of arrival: the same three
    readings give [total_power = 0.0] in one order and [1.0] in another. *)
Example sum_depends_on_order :
  total_power (feed (LiveStats_init "fridge_207" "Fridge") [0x1p53; 1; -0x1p53]%float)
  = 0%float /\
  total_power (feed (LiveStats_init "fridge_207" "Fridge") [0x1p53; -0x1p53; 1]%float)
  = 1%float.
Proof. vm_compute. split; reflexivity. Qed.

(** C1, amended: after [n >= 1] calls [add_data(p1..pn)] on a fresh
    tracker, the readings being any floats but NaN, [message_count] is [n];
    [max_power] is [0.0] or one of the readings and is at least [0.0] and at
    least every reading (the greatest reading, once one is non-negative);
    [min_power] is one of the readings and at most every reading;
    [total_power] is the sum as binary64 accumulates it from [0.0] in arrival
    order, and [get_avg_power()] is that sum divided by [n] in binary64. *)
Theorem add_data_summary (id name : string) (ps : list float) :
  ps <> [] ->
  Forall is_number ps ->
  let s := feed (LiveStats_init id name) ps in
  message_count s = Z.of_nat (length ps) /\
  ((max_power s = 0%float \/ In (max_power s) ps) /\
   float_le 0 (max_power s) /\
   Forall (fun p => float_le p (max_power s)) ps) /\
  (In (min_power s) ps /\
   Forall (fun p => float_le (min_power s) p) ps) /\
  total_power s = float_sum ps /\
  get_avg_power s = Float <$> float_div_int (float_sum ps) (Z.of_nat (length ps)).
Proof.
  intros Hne Hps s.
  assert (Hcount : message_count s = Z.of_nat (length ps)).
  { subst s. rewrite feed_message_count64. simpl. lia. }
  assert (Htotal : total_power s = float_sum ps).
  { subst s. rewrite feed_total_power64. reflexivity. }
  destruct (feed_max_power64 ps (LiveStats_init id name)) as (_ & Hmax & Hmax0 & Hmaxall);
    [reflexivity | exact Hps |].
  destruct (feed_min_power64 ps (LiveStats_init id name)) as (_ & Hmin & _ & Hminall);
    [reflexivity | exact Hps |].
  fold s in Hmax, Hmax0, Hmaxall, Hmin, Hminall. simpl in Hmax, Hmax0, Hmin.
  split; [exact Hcount|]. split; [|split; [|split]].
  - repeat split; assumption.
  - split; [|exact Hminall].
    destruct Hmin as [Hinf | Hin]; [|exact Hin].
    destruct ps as [|p ps']; [congruence|].
    inversion Hminall as [|? ? Hp _]; subst.
    rewrite Hinf in Hp. apply float_le_infinity in Hp.
    rewrite Hinf, <- Hp. left. reflexivity.
  - exact Htotal.
  - unfold get_avg_power. rewrite Hcount, Htotal.
    replace (0 <? Z.of_nat (length ps)) with true; [reflexivity|].
    symmetry. apply Z.ltb_lt. destruct ps; [congruence | simpl; lia].
Qed.

Lemma add_data_summary_witness :
  let s := feed (LiveStats_init "fridge_207" "Fridge") [100; 150; 50]%float in
  message_count s = 3 /\
  max_power s = 150%float /\
  min_power s = 50%float /\
  get_avg_power s = Some (Float 100%float).
Proof.
  assert (H := add_data_summary "fridge_207" "Fridge" [100; 150; 50]%float
                 ltac:(discriminate) ltac:(repeat constructor)).
  vm_compute. repeat split; reflexivity.
Defined.

(** ** The power bar *)

(** C2: after the readings [100.0] and [-50.0] the ratio is [-0.5];
    clamped to [0,1] it gives an empty bar of 30 cells, but the code computes
    [filled = int(-15.0) = -15] and returns [30 - (-15) = 45] light cells. *)
Theorem power_bar_after_negative_reading :
  let s := feed (LiveStats_init "fridge_207" "Fridge") [100; -50]%float in
  spec_ratio s = 0%float /\
  spec_power_bar s 30 = Some (repeat LIGHT_SHADE 30) /\
  get_power_bar s 30 = Some (repeat LIGHT_SHADE 45).
Proof. vm_compute. repeat split; reflexivity. Qed.


(** ** Replay with [mqtt_client=None] *)

Lemma fake_mqtt_publish_some topic payload stats verbose show_json stats' :
  fake_mqtt_publish topic payload stats verbose show_json = Some stats' ->
  stats' = add_data stats (rd_power payload).
Proof.
  unfold fake_mqtt_publish. destruct (verbose || show_json); [|congruence].
  destruct (get_avg_power _); simpl; [|discriminate].
  destruct (get_power_bar _ _); simpl; [congruence | discriminate].
Qed.

(** An iteration that does not raise converts its row, hands the reading
    to the tracker and to the consumer. *)
Lemma simulate_iteration_some env id prefix rate total interval i st r st' :
  simulate_iteration env id prefix rate total interval i st r = Some st' ->
  exists p,
    reading_of id r = Some p /\
    sim_stats st' = add_data (sim_stats st) (rd_power p) /\
    sim_processor st' = process_json_message (sim_processor st) (make_topic prefix id) p.
Proof.
  unfold simulate_iteration, reading_of.
  destruct (row_timestamp r) as [ts|]; simpl; [|discriminate].
  destruct (row_power r) as [pw|]; simpl; [|discriminate].
  match goal with
  | |- context [if ?c then print_dashboard ?s else Some tt] =>
      destruct (if c then print_dashboard s else Some tt) as [[]|]; simpl; [|discriminate]
  end.
  match goal with
  | |- context [fake_mqtt_publish ?t ?p ?s ?v ?j] =>
      destruct (fake_mqtt_publish t p s v j) as [stats'|] eqn:Hpub; simpl; [|discriminate]
  end.
  apply fake_mqtt_publish_some in Hpub. simpl in Hpub.
  match goal with
  | |- context [if ?c then ?a else Some tt] =>
      destruct (if c then a else Some tt) as [[]|]; simpl; [|discriminate]
  end.
  destruct (sleep_for_rate env rate) as [[]|]; simpl; [|discriminate].
  intros [= <-]. eexists. split; [reflexivity|]. simpl. auto.
Qed.

Lemma simulation_loop_readings env id prefix rate total interval rows : forall i st st',
  simulation_loop env id prefix rate total interval i rows st = Some st' ->
  exists ps,
    mapM (reading_of id) rows = Some ps /\
    sim_stats st' = feed (sim_stats st) (map rd_power ps) /\
    sim_processor st' = process_readings (sim_processor st) (make_topic prefix id) ps.
Proof.
  induction rows as [|r rows IH]; intros i st st' Hrun; simpl in Hrun.
  - injection Hrun as <-. exists []. repeat split.
  - destruct (simulate_iteration env id prefix rate total interval i st r)
      as [st1|] eqn:Hit; simpl in Hrun; [|discriminate].
    apply simulate_iteration_some in Hit as (p & Hp & Hs & Ha).
    apply IH in Hrun as (ps & Hps & Hs' & Ha').
    exists (p :: ps). split; [|split].
    + simpl. rewrite Hp. simpl. rewrite Hps. reflexivity.
    + rewrite Hs', Hs. reflexivity.
    + rewrite Ha', Ha. reflexivity.
Qed.

Lemma reading_of_device_id id r p : reading_of id r = Some p -> rd_device_id p = id.
Proof.
  unfold reading_of. destruct (row_timestamp r); simpl; [|discriminate].
  destruct (row_power r); simpl; [|discriminate]. intros [= <-]. reflexivity.
Qed.

Lemma readings_of_device_id id rows : forall ps,
  mapM (reading_of id) rows = Some ps ->
  Forall (fun p => rd_device_id p = id) ps /\ length ps = length rows.
Proof.
  induction rows as [|r rows IH]; intros ps Hps.
  - injection Hps as <-. split; [constructor | reflexivity].
  - simpl in Hps.
    destruct (reading_of id r) as [p|] eqn:Hp; simpl in Hps; [|discriminate].
    destruct (mapM (reading_of id) rows) as [ps'|]; simpl in Hps; [|discriminate].
    injection Hps as <-. destruct (IH ps' eq_refl) as [Hall Hlen].
    split; [constructor; [eapply reading_of_device_id; eassumption | exact Hall]|].
    simpl. congruence.
Qed.

Lemma feed_snoc64 s ps p : feed s (ps ++ [p]) = add_data (feed s ps) p.
Proof. unfold feed. rewrite fold_left_app. reflexivity. Qed.

Lemma process_readings_snoc a topic ps p :
  process_readings a topic (ps ++ [p])
  = process_json_message (process_readings a topic ps) topic p.
Proof. unfold process_readings. rewrite fold_left_app. reflexivity. Qed.

(** The consumer of a replay: its log lists the readings in order, its
    counter is their number, and its only record is the one of the device, a
    copy of the tracker's figures. *)
Lemma process_readings_mirror id name prefix tf ps :
  Forall (fun p => rd_device_id p = id) ps ->
  let a := process_readings (ApplicationLayer_init tf) (make_topic prefix id) ps in
  let s := feed (LiveStats_init id name) (map rd_power ps) in
  processed_count a = Z.of_nat (length ps) /\
  received_messages a = map (log_entry prefix) ps /\
  device_stats a = match ps with
                   | [] => ∅
                   | _ :: _ => {[ id := record_like s ]}
                   end.
Proof.
  intros Hall a s. subst a s.
  induction ps as [|p ps IH] using rev_ind; [repeat split|].
  apply Forall_app in Hall as [Hps Hp]. inversion Hp as [|? ? Hid _]; subst.
  destruct (IH Hps) as (Hcount & Hlog & Hstats). clear IH.
  rewrite process_readings_snoc, !map_app. simpl map. rewrite feed_snoc64.
  unfold process_json_message.
  cbn [processed_count received_messages device_stats].
  rewrite Hcount, Hlog, Hstats, length_app. simpl length.
  split; [lia|]. split; [reflexivity|].
  destruct ps as [|q ps']; simpl.
  - rewrite lookup_empty. simpl. rewrite insert_empty. reflexivity.
  - rewrite lookup_singleton_eq. simpl. rewrite insert_singleton_eq. reflexivity.
Qed.


(** A run that returns has read the data set, converted every row it
    replays, and handed every reading to the tracker and to the consumer. *)
Lemma simulate_device_state_some env name id prefix size rate st :
  simulate_device_state env name id prefix size rate = Some st ->
  exists df ps,
    read_csv env = Some df /\
    mapM (reading_of id) (sample_rows size df) = Some ps /\
    sim_stats st = feed (LiveStats_init id name) (map rd_power ps) /\
    sim_processor st
    = process_readings (ApplicationLayer_init (prefix ++ "/+/power"))
        (make_topic prefix id) ps /\
    get_avg_power (sim_stats st) <> None.
Proof.
  unfold simulate_device_state.
  destruct (interrupted env); [discriminate|].
  destruct (read_csv env) as [df|]; simpl; [|discriminate].
  fold (sample_rows size df).
  destruct (int_div_float _ rate); simpl; [|discriminate].
  match goal with
  | |- context [simulation_loop ?e ?i ?p ?r ?t ?d ?k ?rows ?s] =>
      destruct (simulation_loop e i p r t d k rows s) as [st1|] eqn:Hloop;
        simpl; [|discriminate]
  end.
  destruct (print_dashboard (sim_stats st1)); simpl; [|discriminate].
  destruct (get_avg_power (sim_stats st1)) eqn:Havg; simpl; [|discriminate].
  destruct (int_div_float _ (total_time env)); simpl; [|discriminate].
  intros [= <-].
  apply simulation_loop_readings in Hloop as (ps & Hps & Hs & Ha).
  exists df, ps. repeat split; try assumption. congruence.
Qed.

(** The claim as worded fails for [n = 0]: the record of a device is
    created by its first message, so after an empty replay, which completes,
    [device_stats] has no entry for the device and
    [device_stats[device_id]["message_count"]] does not exist. *)
Lemma replay_empty_leaves_no_record :
  let env := {| read_csv := Some []; interrupted := false;
                sleep_refuses := fun _ => false; total_time := 0x1p-10%float |} in
  exists processor,
    simulate_device env "Buzdolabı" "fridge_207" "home/appliance" None 10000%float
    = Some processor /\
    processed_count processor = 0 /\
    device_stats processor !! "fridge_207"%string = None.
Proof. eexists. vm_compute. repeat split; reflexivity. Qed.

(** C4, amended: with [mqtt_client=None], a replay of [n] readings that
    runs to its end and returns the consumer leaves [processed_count = n];
    for [n >= 1] the record of the device has [message_count = n]; for
    [n = 0] the consumer has no record of the device. *)
Theorem replay_counts (env : RunEnv) (name id prefix : string) (size : option Z)
    (rate : float) (df : list row) (processor : ApplicationLayer) :
  read_csv env = Some df ->
  simulate_device env name id prefix size rate = Some processor ->
  let n := Z.of_nat (length (sample_rows size df)) in
  processed_count processor = n /\
  Z.of_nat (length (received_messages processor)) = n /\
  (1 <= n -> exists ds,
     device_stats processor !! id = Some ds /\ ds_message_count ds = n) /\
  (n = 0 -> device_stats processor !! id = None).
Proof.
  intros Hcsv Hrun n. unfold simulate_device in Hrun.
  destruct (simulate_device_state env name id prefix size rate) as [st|] eqn:Hst;
    simpl in Hrun; [|discriminate].
  injection Hrun as <-.
  apply simulate_device_state_some in Hst as (df' & ps & Hcsv' & Hps & Hs & Ha & _).
  assert (df' = df) by congruence. subst df'.
  destruct (readings_of_device_id _ _ _ Hps) as [Hall Hlen].
  destruct (process_readings_mirror id name prefix (prefix ++ "/+/power") ps Hall)
    as (Hcount & Hlog & Hstats).
  rewrite <- Ha in Hcount, Hlog, Hstats.
  subst n. rewrite <- Hlen.
  split; [exact Hcount|]. split; [rewrite Hlog, length_map; reflexivity|].
  rewrite Hstats. split.
  - intros Hn. destruct ps as [|p ps']; [simpl in Hn; lia|].
    eexists. split; [apply lookup_singleton_eq|].
    simpl ds_message_count. rewrite feed_message_count64. simpl.
    rewrite length_map. lia.
  - intros Hn. destruct ps as [|p ps']; [apply lookup_empty | simpl in Hn; lia].
Qed.

Lemma replay_counts_witness :
  let env := {| read_csv := Some [good_row "2024-01-01T00:00:00" 100%float;
                                  good_row "2024-01-01T00:00:01" 150%float;
                                  good_row "2024-01-01T00:00:02" 50%float];
                interrupted := false; sleep_refuses := fun _ => false;
                total_time := 0x1p-10%float |} in
  exists processor,
    simulate_device env "Buzdolabı" "fridge_207" "home/appliance" None 10000%float
    = Some processor /\
    processed_count processor = 3 /\
    exists ds,
      device_stats processor !! "fridge_207"%string = Some ds /\ ds_message_count ds = 3.
Proof.
  intros env. eexists. split; [vm_compute; reflexivity|].
  match goal with
  | |- processed_count ?p = _ /\ _ =>
      destruct (replay_counts env "Buzdolabı" "fridge_207" "home/appliance" None
                  10000%float _ p eq_refl ltac:(vm_compute; reflexivity))
        as (Hcount & _ & Hrec & _)
  end.
  split; [exact Hcount|]. apply Hrec. simpl. lia.
Defined.

(** The replay does not always run to its end: what the loop computes for
    display can raise.  After a reading of [2**-1000] W the reading
    [-2**40] W makes the bar ratio [-inf]; [int()] raises [OverflowError] in
    [fake_mqtt_publish], and [simulate_device] returns [None]. *)
Example display_overflow_aborts_replay :
  let env := {| read_csv := Some [good_row "2024-01-01T00:00:00" 0x1p-1000%float;
                                  good_row "2024-01-01T00:00:01" (-0x1p40)%float];
                interrupted := false; sleep_refuses := fun _ => false;
                total_time := 0x1p-10%float |} in
  get_power_bar (feed (LiveStats_init "fridge_207" "Buzdolabı")
                   [0x1p-1000; -0x1p40]%float) 30 = None /\
  simulate_device env "Buzdolabı" "fridge_207" "home/appliance" None 10000%float = None.
Proof. vm_compute. split; reflexivity. Qed.


(** What a completed replay leaves in the tracker and in the consumer. *)
Lemma simulation_mode_mirror_facts env name id prefix size rate st :
  simulate_device_state env name id prefix size rate = Some st ->
  exists ps,
    sim_stats st = feed (LiveStats_init id name) (map rd_power ps) /\
    processed_count (sim_processor st) = message_count (sim_stats st) /\
    received_messages (sim_processor st) = map (log_entry prefix) ps /\
    (ps <> [] ->
     device_stats (sim_processor st) = {[ id := record_like (sim_stats st) ]}) /\
    (ps = [] -> device_stats (sim_processor st) = ∅).
Proof.
  intros Hst.
  apply simulate_device_state_some in Hst as (df & ps & Hcsv & Hps & Hs & Ha & _).
  destruct (readings_of_device_id _ _ _ Hps) as [Hall _].
  destruct (process_readings_mirror id name prefix (prefix ++ "/+/power") ps Hall)
    as (Hcount & Hlog & Hstats).
  rewrite <- Ha in Hcount, Hlog, Hstats.
  exists ps. split; [exact Hs|].
  split; [|split; [exact Hlog|split]].
  - rewrite Hcount, Hs, feed_message_count64, length_map. simpl. lia.
  - intros Hne. rewrite Hstats, Hs. destruct ps; [congruence | reflexivity].
  - intros ->. exact Hstats.
Qed.

(** X20: what a completed replay leaves.  The tracker has taken the power
    of every row in order; the consumer has logged one entry per row, in
    order, and counted them; its record of the device holds the very figures
    of the tracker (count, total, maximum, minimum), both being computed by
    the same operations in the same order. *)
Theorem simulation_mode_mirror (env : RunEnv) (name id prefix : string)
    (size : option Z) (rate : float) (st : SimState) :
  simulate_device_state env name id prefix size rate = Some st ->
  exists df ps,
    read_csv env = Some df /\
    mapM (reading_of id) (sample_rows size df) = Some ps /\
    sim_stats st = feed (LiveStats_init id name) (map rd_power ps) /\
    processed_count (sim_processor st) = message_count (sim_stats st) /\
    received_messages (sim_processor st) = map (log_entry prefix) ps /\
    (ps <> [] ->
     device_stats (sim_processor st) = {[ id := record_like (sim_stats st) ]}) /\
    (ps = [] -> device_stats (sim_processor st) = ∅).
Proof.
  intros Hst.
  destruct (simulate_device_state_some _ _ _ _ _ _ _ Hst)
    as (df & ps & Hcsv & Hps & Hs & Ha & _).
  destruct (readings_of_device_id _ _ _ Hps) as [Hall _].
  destruct (process_readings_mirror id name prefix (prefix ++ "/+/power") ps Hall)
    as (Hcount & Hlog & Hstats).
  rewrite <- Ha in Hcount, Hlog, Hstats.
  exists df, ps. split; [exact Hcsv|]. split; [exact Hps|]. split; [exact Hs|].
  split; [|split; [exact Hlog|split]].
  - rewrite Hcount, Hs, feed_message_count64, length_map. simpl. lia.
  - intros Hne. rewrite Hstats, Hs. destruct ps; [congruence | reflexivity].
  - intros ->. exact Hstats.
Qed.

Lemma simulation_mode_mirror_witness :
  let env := {| read_csv := Some [good_row "2024-01-01T00:00:00" 100%float;
                                  good_row "2024-01-01T00:00:01" 150%float;
                                  good_row "2024-01-01T00:00:02" 50%float];
                interrupted := false; sleep_refuses := fun _ => false;
                total_time := 0x1p-10%float |} in
  exists st,
    simulate_device_state env "Buzdolabı" "fridge_207" "home/appliance" None 10000%float
    = Some st /\
    processed_count (sim_processor st) = message_count (sim_stats st) /\
    device_stats (sim_processor st) = {[ "fridge_207"%string := record_like (sim_stats st) ]}.
Proof.
  intros env. eexists. split; [vm_compute; reflexivity|].
  match goal with
  | |- processed_count (sim_processor ?st) = _ /\ _ =>
      destruct (simulation_mode_mirror env "Buzdolabı" "fridge_207" "home/appliance"
                  None 10000%float st ltac:(vm_compute; reflexivity))
        as (df & ps & Hcsv & Hps & _ & Hcount & _ & Hrec & _)
  end.
  split; [exact Hcount|]. apply Hrec.
  injection Hcsv as <-. vm_compute in Hps. injection Hps as <-. discriminate.
Defined.

(** The loop gives up on a row that does not convert, and at the first
    [time.sleep] that raises. *)
Lemma simulate_iteration_bad_row env id prefix rate total interval i st r :
  reading_of id r = None ->
  simulate_iteration env id prefix rate total interval i st r = None.
Proof.
  unfold reading_of, simulate_iteration.
  destruct (row_timestamp r); simpl; [|reflexivity].
  destruct (row_power r); simpl; [discriminate | reflexivity].
Qed.

Lemma simulate_iteration_no_sleep env id prefix rate total interval i st r :
  sleep_for_rate env rate = None ->
  simulate_iteration env id prefix rate total interval i st r = None.
Proof.
  intros Hsleep.
  destruct (simulate_iteration env id prefix rate total interval i st r)
    as [st'|] eqn:Hit; [|reflexivity].
  exfalso. revert Hit. unfold simulate_iteration.
  destruct (row_timestamp r); simpl; [|discriminate].
  destruct (row_power r); simpl; [|discriminate].
  match goal with
  | |- context [if ?c then print_dashboard ?s else Some tt] =>
      destruct (if c then print_dashboard s else Some tt) as [[]|]; simpl; [|discriminate]
  end.
  match goal with
  | |- context [fake_mqtt_publish ?t ?p ?s ?v ?j] =>
      destruct (fake_mqtt_publish t p s v j); simpl; [|discriminate]
  end.
  match goal with
  | |- context [if ?c then ?a else Some tt] =>
      destruct (if c then a else Some tt) as [[]|]; simpl; [|discriminate]
  end.
  rewrite Hsleep. discriminate.
Qed.

Lemma simulation_loop_bad_row env id prefix rate total interval rows : forall i st,
  Exists (fun r => reading_of id r = None) rows ->
  simulation_loop env id prefix rate total interval i rows st = None.
Proof.
  induction rows as [|r rows IH]; intros i st Hbad; [inversion Hbad|].
  simpl. inversion Hbad as [? ? Hr | ? ? Hrest]; subst.
  - rewrite simulate_iteration_bad_row by exact Hr. reflexivity.
  - destruct (simulate_iteration _ _ _ _ _ _ _ _ _); simpl; [|reflexivity].
    apply IH. exact Hrest.
Qed.

Lemma sleep_for_rate_refused env rate :
  float_eq rate 0 = false ->
  delay_refused env (1 / rate)%float ->
  sleep_for_rate env rate = None.
Proof.
  unfold sleep_for_rate, float_div, delay_refused. intros -> Href. simpl.
  destruct Href as [-> | [-> | ->]]; simpl; [reflexivity| |].
  - destruct (float_lt _ _); reflexivity.
  - destruct (float_lt _ _), (float_eq _ _); reflexivity.
Qed.

(** X19: [simulate_device] gives up ([return None]) when the user
    interrupts it, when the data set cannot be read, when [publish_rate] is
    zero, when a row to replay does not convert, when there is a row to
    replay and [time.sleep] refuses the delay [1.0 / publish_rate], and when
    no wall-clock time is measured for the loop (the final division). *)
Theorem simulate_device_gives_up (env : RunEnv) (name id prefix : string)
    (size : option Z) (rate : float) :
  interrupted env = true \/
  read_csv env = None \/
  float_eq rate 0 = true \/
  float_eq (total_time env) 0 = true \/
  (exists df,
     read_csv env = Some df /\
     (Exists (fun r => reading_of id r = None) (sample_rows size df) \/
      (sample_rows size df <> [] /\ delay_refused env (1 / rate)%float))) ->
  simulate_device env name id prefix size rate = None.
Proof.
  intros Hcause. unfold simulate_device, simulate_device_state.
  destruct (interrupted env) eqn:Hint; [reflexivity|].
  destruct (read_csv env) as [df|] eqn:Hcsv; [|reflexivity].
  simpl. fold (sample_rows size df).
  destruct (float_eq rate 0) eqn:Hrate.
  { unfold int_div_float. destruct (float_of_int _); simpl; [rewrite Hrate|]; reflexivity. }
  destruct (int_div_float _ rate); simpl; [|reflexivity].
  destruct Hcause as [H | [H | [H | [Htime | (df' & Hcsv' & Hrows)]]]];
    try discriminate.
  - match goal with
    | |- context [simulation_loop ?e ?i ?p ?r ?t ?d ?k ?rows ?s] =>
        destruct (simulation_loop e i p r t d k rows s); simpl; [|reflexivity]
    end.
    destruct (print_dashboard _); simpl; [|reflexivity].
    destruct (get_avg_power _); simpl; [|reflexivity].
    unfold int_div_float. destruct (float_of_int _); simpl; [rewrite Htime|]; reflexivity.
  - injection Hcsv' as <-. destruct Hrows as [Hbad | [Hne Href]].
    + rewrite simulation_loop_bad_row by exact Hbad. reflexivity.
    + destruct (sample_rows size df) as [|r rows]; [congruence|].
      simpl. rewrite simulate_iteration_no_sleep; [reflexivity|].
      apply sleep_for_rate_refused; assumption.
Qed.

Lemma simulate_device_gives_up_witness :
  let env := {| read_csv := Some [good_row "2024-01-01T00:00:00" 100%float];
                interrupted := false; sleep_refuses := fun _ => false;
                total_time := 0x1p-10%float |} in
  simulate_device env "Buzdolabı" "fridge_207" "home/appliance" None (-10000)%float = None.
Proof.
  intros env.
  apply (simulate_device_gives_up env "Buzdolabı" "fridge_207" "home/appliance" None
           (-10000)%float).
  right. right. right. right. eexists. split; [reflexivity|].
  right. split; [discriminate|]. left. vm_compute. reflexivity.
Defined.

(** ** [main] *)

Lemma run_of_processor envs device st :
  run_of envs device = Some st ->
  simulate_device (envs (dc_csv_file device)) (dc_name device) (dc_device_id device)
    (dc_topic_prefix device) None PUBLISH_RATE = Some (sim_processor st).
Proof. unfold run_of, simulate_device. intros ->. reflexivity. Qed.

Lemma run_of_none envs device :
  run_of envs device = None ->
  simulate_device (envs (dc_csv_file device)) (dc_name device) (dc_device_id device)
    (dc_topic_prefix device) None PUBLISH_RATE = None.
Proof. unfold run_of, simulate_device. intros ->. reflexivity. Qed.

(** What the consumer of a completed run shows to the summary. *)
Lemma run_of_consumer envs device st :
  run_of envs device = Some st ->
  Z.of_nat (length (received_messages (sim_processor st))) = replayed st /\
  0 <= replayed st /\
  get_avg_power (sim_stats st) <> None /\
  (replayed st = 0 -> device_stats (sim_processor st) = ∅) /\
  (replayed st <> 0 ->
   device_stats (sim_processor st)
   = {[ dc_device_id device := record_like (sim_stats st) ]}).
Proof.
  intros Hrun. unfold run_of in Hrun.
  assert (Havg : get_avg_power (sim_stats st) <> None).
  { apply simulate_device_state_some in Hrun as (? & ? & _ & _ & _ & _ & H). exact H. }
  apply simulation_mode_mirror_facts in Hrun
    as (ps & Hs & Hcount & Hlog & Hrec & Hempty).
  unfold replayed.
  assert (Hn : message_count (sim_stats st) = Z.of_nat (length ps)).
  { rewrite Hs, feed_message_count64, length_map. simpl. lia. }
  split; [rewrite Hlog, length_map; lia|]. split; [lia|]. split; [exact Havg|].
  split; intros H.
  - apply Hempty. destruct ps; [reflexivity | simpl in *; lia].
  - apply Hrec. intros ->. simpl in *. lia.
Qed.

Lemma summary_row_of_own (i : nat) envs device st :
  devices !! i = Some device ->
  run_of envs device = Some st ->
  summary_row_of i (sim_processor st) = Some (own_block device st).
Proof.
  intros Hdev Hrun.
  destruct (run_of_consumer envs device st Hrun) as (_ & _ & Havg & Hempty & Hrec).
  unfold summary_row_of, own_block. rewrite Hdev. simpl.
  destruct (Z.eqb_spec (replayed st) 0) as [Hz | Hnz].
  - rewrite (Hempty Hz), lookup_empty.
    apply run_of_consumer in Hrun as (Hlen & _). rewrite Hlen, Hz. reflexivity.
  - rewrite (Hrec Hnz), lookup_singleton_eq. simpl.
    fold (get_avg_power (sim_stats st)).
    destruct (get_avg_power (sim_stats st)); [reflexivity | congruence].
Qed.

(** X22: the final summary of [main].  The device count is the number of
    runs that returned a consumer and the total is the number of readings
    they replayed.  The per-device blocks are labelled by position in
    [devices]: when both runs return, each device gets a block with the
    figures of its own tracker; but when only the second run returns, its
    block carries the first device's name and id and, its consumer having no
    record under that id, only the message count. *)
Theorem main_summary (envs : string -> RunEnv) :
  main envs
  = Some match run_of envs fridge, run_of envs vacuum with
         | Some f, Some v =>
           {| sm_devices := 2;
              sm_total_messages := replayed f + replayed v;
              sm_rows := [own_block fridge f; own_block vacuum v] |}
         | Some f, None =>
           {| sm_devices := 1;
              sm_total_messages := replayed f;
              sm_rows := [own_block fridge f] |}
         | None, Some v =>
           {| sm_devices := 1;
              sm_total_messages := replayed v;
              sm_rows := [CountOnly (dc_name fridge) (dc_device_id fridge) (replayed v)] |}
         | None, None =>
           {| sm_devices := 0; sm_total_messages := 0; sm_rows := [] |}
         end.
Proof.
  unfold main, all_processors. change devices with [fridge; vacuum].
  cbn [omap list_omap].
  destruct (run_of envs fridge) as [f|] eqn:Hf, (run_of envs vacuum) as [v|] eqn:Hv.
  - rewrite (run_of_processor _ _ _ Hf), (run_of_processor _ _ _ Hv).
    cbn [imap mapM fst snd mbind option_bind mret option_ret compose].
    rewrite (summary_row_of_own 0 envs fridge f eq_refl Hf).
    rewrite (summary_row_of_own 1 envs vacuum v eq_refl Hv).
    destruct (run_of_consumer _ _ _ Hf) as (Hlf & _).
    destruct (run_of_consumer _ _ _ Hv) as (Hlv & _).
    simpl. rewrite Hlf, Hlv. reflexivity.
  - rewrite (run_of_processor _ _ _ Hf), (run_of_none _ _ Hv).
    cbn [imap mapM fst snd mbind option_bind mret option_ret compose].
    rewrite (summary_row_of_own 0 envs fridge f eq_refl Hf).
    destruct (run_of_consumer _ _ _ Hf) as (Hlf & _).
    simpl. rewrite Hlf. reflexivity.
  - rewrite (run_of_none _ _ Hf), (run_of_processor _ _ _ Hv).
    cbn [imap mapM fst snd mbind option_bind mret option_ret compose].
    destruct (run_of_consumer _ _ _ Hv) as (Hlv & _ & _ & Hempty & Hrec).
    unfold summary_row_of. change (devices !! 0%nat) with (Some fridge).
    cbn [mbind option_bind].
    assert (Hnone : device_stats (sim_processor v) !! dc_device_id fridge = None).
    { destruct (Z.eq_dec (replayed v) 0) as [Hz | Hnz].
      - rewrite (Hempty Hz). apply lookup_empty.
      - rewrite (Hrec Hnz). apply lookup_singleton_ne. discriminate. }
    rewrite Hnone. simpl. rewrite Hlv. reflexivity.
  - rewrite (run_of_none _ _ Hf), (run_of_none _ _ Hv). reflexivity.
Qed.

End Binary64Facts.

(* ===================================================================== *)
(** * Properties of the wire encoding *)
(* ===================================================================== *)

Section WireFacts.

Import Float64 Wire.



(** ** Numerals *)







(** ** Strings *)




(** ** Numbers *)








(** ** The payload *)

(** The text of a reading: the layout of [json.dumps], the number in exact
    decimal. *)
Example encode_fridge_reading :
  encode {| rd_device_id := "fridge_207"; rd_timestamp := "2024-01-01T00:00:00";
            rd_power := 0x1.2p3%float |}
  = (String "{" (write_string "device_id") ++ ": " ++ write_string "fridge_207" ++ ", "
     ++ write_string "timestamp" ++ ": " ++ write_string "2024-01-01T00:00:00" ++ ", "
     ++ write_string "power" ++ ": 90000000000000000000000000000000000000000000000000e-49}")%string.
Proof. vm_compute. reflexivity. Qed.


End WireFacts.
